(** * geoserver-node-client: request construction and error classification

    A shallow embedding of the workspace, namespace, data store, settings and
    about clients, of the shared error utility and of the facade constructor,
    together with the properties of the request/response protocol they
    implement. *)

From Stdlib Require Import ZArith NArith List String Ascii Bool Lia.
From Stdlib Require Import DecimalString DecimalN.
From ExtLib Require Import Structures.Monad Structures.MonadExc.
Import ListNotations.
Import MonadNotation.

Set Warnings "-register-all".

Local Open Scope string_scope.
Local Open Scope monad_scope.

(** ** JavaScript values and built-ins used by the clients *)

Module Js.

(** Strings are modelled by their UTF-8 bytes.  All separators the clients
    look for are ASCII, so searching and concatenating on bytes agrees with
    the same operation on UTF-16 code units for well-formed strings. *)

(** [String.prototype.endsWith]: [s] ends with [suffix] when it is [suffix]
    or when its tail ends with [suffix]. *)
Fixpoint endsWith (s suffix : string) : bool :=
  (s =? suffix) ||
  match s with
  | EmptyString => false
  | String _ s' => endsWith s' suffix
  end.

(** ASCII lower-casing, as done by node-fetch on header names. *)
Definition lower_ascii (c : ascii) : ascii :=
  let n := N_of_ascii c in
  if ((65 <=? n) && (n <=? 90))%N then ascii_of_N (n + 32) else c.

Fixpoint toLowerCase (s : string) : string :=
  match s with
  | EmptyString => EmptyString
  | String c s' => String (lower_ascii c) (toLowerCase s')
  end.

(** [Number.prototype.toString] on an integral number: the decimal digits,
    with a leading minus sign for negative numbers.  (JavaScript switches to
    exponent notation from 10^21 on; ports and file sizes stay far below.) *)
Definition Number_toString (n : Z) : string :=
  NilEmpty.string_of_int (Z.to_int n).

(** Reading a decimal numeral back, as a server does with Content-Length. *)
Definition parse_decimal (s : string) : option N :=
  option_map N.of_uint (NilEmpty.uint_of_string s).

(** *** Values *)

(** The values that travel through the clients: what [response.json()]
    decodes, what [JSON.stringify] serialises, and [undefined].  Objects keep
    their properties in insertion order.  Numbers are the integral ones. *)
Inductive JsValue : Type :=
| JUndefined
| JNull
| JBool (b : bool)
| JNum (n : Z)
| JStr (s : string)
| JArr (elems : list JsValue)
| JObj (props : list (string * JsValue)).

(** [ToBoolean]: [undefined], [null], [false], [0] and the empty string are falsy. *)
Definition truthy (v : JsValue) : bool :=
  match v with
  | JUndefined | JNull => false
  | JBool b => b
  | JNum n => negb (n =? 0)%Z
  | JStr s => negb (s =? EmptyString)
  | JArr _ | JObj _ => true
  end.

(** [a || b] on values: [a] when it is truthy, otherwise [b]. *)
Definition or_else (a b : JsValue) : JsValue :=
  if truthy a then a else b.

(** The same operator on an optional string argument ([None] is an omitted,
    hence [undefined], argument): [layerTitle || layerName]. *)
Definition string_or_else (a : option string) (b : string) : string :=
  match a with
  | Some s => if s =? EmptyString then b else s
  | None => b
  end.

(** ... and on an optional boolean argument: [exposePk || false]. *)
Definition bool_or_else (a : option bool) (b : bool) : bool :=
  match a with
  | Some true => true
  | Some false | None => b
  end.

(** *** Errors *)

(** What a promise can be rejected with, or a statement can throw. *)
Inductive JsError : Type :=
| GeoServerResponseError (message : string) (geoServerOutput : option string)
| TypeError (message : string)
| FetchError (message : string)
| SystemError (code : string).

(** Synchronous evaluation of an expression. *)
Inductive Completion (A : Type) : Type :=
| Normal (a : A)
| Abrupt (e : JsError).
Arguments Normal {A} a.
Arguments Abrupt {A} e.

(** A settled promise. *)
Inductive Settled (A : Type) : Type :=
| Fulfilled (a : A)
| Rejected (e : JsError).
Arguments Fulfilled {A} a.
Arguments Rejected {A} e.

(** *** Property access *)

Fixpoint assoc (k : string) (props : list (string * JsValue)) : option JsValue :=
  match props with
  | [] => None
  | (k', v) :: rest => if k' =? k then Some v else assoc k rest
  end.

(** Writing property [k] of an object: an existing property keeps its place,
    a new one goes last. *)
Fixpoint assoc_set (k : string) (v : JsValue) (props : list (string * JsValue))
  : list (string * JsValue) :=
  match props with
  | [] => [(k, v)]
  | (k', v') :: rest =>
      if k' =? k then (k', v) :: rest else (k', v') :: assoc_set k v rest
  end.

(** [o.name] for a property name that is not a built-in member of arrays or
    of the primitive wrappers (the clients read [global] and [settings]):
    reading from [undefined] or [null] throws, an object yields the property
    or [undefined], everything else yields [undefined]. *)
Definition get_prop (o : JsValue) (name : string) : Completion JsValue :=
  match o with
  | JUndefined =>
      Abrupt (TypeError ("Cannot read properties of undefined (reading '" ++ name ++ "')"))
  | JNull =>
      Abrupt (TypeError ("Cannot read properties of null (reading '" ++ name ++ "')"))
  | JObj props =>
      Normal (match assoc name props with Some v => v | None => JUndefined end)
  | JBool _ | JNum _ | JStr _ | JArr _ => Normal JUndefined
  end.

(** [o.name = v] in strict code (class bodies are strict), giving the updated
    [o]: it throws on [undefined], [null] and on primitives; on an array it
    adds a named property, which no serialisation shows. *)
Definition set_prop (o : JsValue) (name : string) (v : JsValue) : Completion JsValue :=
  match o with
  | JUndefined =>
      Abrupt (TypeError ("Cannot set properties of undefined (setting '" ++ name ++ "')"))
  | JNull =>
      Abrupt (TypeError ("Cannot set properties of null (setting '" ++ name ++ "')"))
  | JBool _ | JNum _ | JStr _ =>
      Abrupt (TypeError ("Cannot create property '" ++ name ++ "' on a primitive"))
  | JArr elems => Normal (JArr elems)
  | JObj props => Normal (JObj (assoc_set name v props))
  end.

(** *** JSON.stringify *)

Definition hex_digit (n : N) : ascii :=
  match String.get (N.to_nat n) "0123456789abcdef" with
  | Some c => c
  | None => "0"%char
  end.

Definition dquote : ascii := ascii_of_N 34.
Definition backslash : ascii := ascii_of_N 92.

(** One character of a quoted JSON string. *)
Definition escape_char (c : ascii) : string :=
  let n := N_of_ascii c in
  if (n =? 34)%N then String backslash (String dquote EmptyString)
  else if (n =? 92)%N then "\\"
  else if (n =? 8)%N then "\b"
  else if (n =? 9)%N then "\t"
  else if (n =? 10)%N then "\n"
  else if (n =? 12)%N then "\f"
  else if (n =? 13)%N then "\r"
  else if (n <? 32)%N then
    "\u00" ++ String (hex_digit (n / 16)) (String (hex_digit (n mod 16)) EmptyString)
  else String c EmptyString.

Fixpoint escape (s : string) : string :=
  match s with
  | EmptyString => EmptyString
  | String c s' => escape_char c ++ escape s'
  end.

Definition quote (s : string) : string :=
  String dquote (escape s ++ String dquote EmptyString).

(** Serialisation of a value that is not [undefined] at top level: inside an
    array [undefined] prints as [null], inside an object a property whose
    value is [undefined] is left out. *)
Fixpoint stringify (v : JsValue) : string :=
  match v with
  | JUndefined | JNull => "null"
  | JBool true => "true"
  | JBool false => "false"
  | JNum n => Number_toString n
  | JStr s => quote s
  | JArr elems =>
      "[" ++
      (fix items (l : list JsValue) : string :=
         match l with
         | [] => EmptyString
         | x :: rest =>
             stringify x ++
             match rest with [] => EmptyString | _ :: _ => "," ++ items rest end
         end) elems
      ++ "]"
  | JObj props =>
      "{" ++
      (fix members (first : bool) (l : list (string * JsValue)) : string :=
         match l with
         | [] => EmptyString
         | (_, JUndefined) :: rest => members first rest
         | (k, x) :: rest =>
             (if first then EmptyString else ",") ++ quote k ++ ":" ++ stringify x
             ++ members false rest
         end) true props
      ++ "}"
  end.

(** [JSON.stringify(v)]: no string at all for [undefined]. *)
Definition JSON_stringify (v : JsValue) : option string :=
  match v with
  | JUndefined => None
  | _ => Some (stringify v)
  end.

(** *** Buffer.from(s).toString('base64') *)

Definition base64_alphabet : string :=
  "ABCDEFGHIJKLMNOPQRSTUVWXYZabcdefghijklmnopqrstuvwxyz0123456789+/".

Definition base64_digit (n : Z) : ascii :=
  match String.get (Z.to_nat (Z.land n 63)) base64_alphabet with
  | Some c => c
  | None => "="%char
  end.

Definition byte_of (c : ascii) : Z := Z.of_N (N_of_ascii c).

(** Three bytes make four digits; one or two trailing bytes are padded. *)
Fixpoint base64 (s : string) : string :=
  match s with
  | EmptyString => EmptyString
  | String a EmptyString =>
      let w := Z.shiftl (byte_of a) 16 in
      String (base64_digit (Z.shiftr w 18))
        (String (base64_digit (Z.shiftr w 12)) "==")
  | String a (String b EmptyString) =>
      let w := Z.lor (Z.shiftl (byte_of a) 16) (Z.shiftl (byte_of b) 8) in
      String (base64_digit (Z.shiftr w 18))
        (String (base64_digit (Z.shiftr w 12))
           (String (base64_digit (Z.shiftr w 6)) "="))
  | String a (String b (String c rest)) =>
      let w := Z.lor (Z.lor (Z.shiftl (byte_of a) 16) (Z.shiftl (byte_of b) 8))
                     (byte_of c) in
      String (base64_digit (Z.shiftr w 18))
        (String (base64_digit (Z.shiftr w 12))
           (String (base64_digit (Z.shiftr w 6))
              (String (base64_digit w) (base64 rest))))
  end.

End Js.

Import Js.

(** ** The transport: node-fetch and the file system *)

Inductive Method : Type := GET | POST | PUT | DELETE.

(** A request body: a string, or the read stream of a local file
    ([fs.createReadStream(path)], which opens the file lazily). *)
Inductive Body : Type :=
| BodyText (s : string)
| BodyStream (path : string).

(** The two arguments of [fetch(url, init)]. *)
Record Request : Type := mkRequest {
  req_url : string;
  req_method : Method;
  req_headers : list (string * string);
  req_body : option Body
}.

(** A response: its status and what reading its body as text or as JSON
    settles to.  No operation reads a body twice, so both outcomes are data. *)
Record Response : Type := mkResponse {
  status : Z;
  text : Settled string;
  json : Settled JsValue
}.

(** [response.ok]: the status is in the range 200-299. *)
Definition ok (r : Response) : bool :=
  ((200 <=? status r) && (status r <? 300))%Z.

(** [Headers.get]: header names are compared case-insensitively. *)
Fixpoint Headers_get (hs : list (string * string)) (name : string) : option string :=
  match hs with
  | [] => None
  | (k, v) :: rest =>
      if toLowerCase k =? toLowerCase name then Some v else Headers_get rest name
  end.

(** [fs.Stats], of which the clients read [size]. *)
Record Stats : Type := mkStats { size : N }.

(** The capability interface the clients consume.  [send] performs one HTTP
    exchange (it rejects on a network failure); [statSync] throws when the path
    cannot be examined. *)
Class Transport : Type := {
  World : Type;
  send : Request -> World -> Settled Response * World;
  statSync : string -> World -> Completion Stats
}.

(** ** Asynchronous functions *)

Section Async.
Context {T : Transport}.

(** The outside world, and the requests handed to [fetch] so far. *)
Record State : Type := mkState {
  world : World;
  issued : list Request
}.

(** The body of an [async] function: it runs against the world and ends with
    a settled promise. *)
Definition Async (A : Type) : Type := State -> Settled A * State.

Definition Async_ret {A : Type} (a : A) : Async A :=
  fun st => (Fulfilled a, st).

(** [await] in sequence: a rejection skips the rest. *)
Definition Async_bind {A B : Type} (c : Async A) (k : A -> Async B) : Async B :=
  fun st =>
    match c st with
    | (Fulfilled a, st') => k a st'
    | (Rejected e, st') => (Rejected e, st')
    end.

(** [throw e] *)
Definition Async_raise {A : Type} (e : JsError) : Async A :=
  fun st => (Rejected e, st).

(** [try { await c } catch (e) { h e }] *)
Definition Async_catch {A : Type} (c : Async A) (h : JsError -> Async A) : Async A :=
  fun st =>
    match c st with
    | (Fulfilled a, st') => (Fulfilled a, st')
    | (Rejected e, st') => h e st'
    end.

#[global] Instance Monad_Async : Monad Async :=
  {| ret := @Async_ret; bind := @Async_bind |}.

#[global] Instance Exc_Async : MonadExc JsError Async :=
  {| raise := @Async_raise; catch := @Async_catch |}.

(** Awaiting (or returning) an already settled promise. *)
Definition await {A : Type} (p : Settled A) : Async A :=
  fun st => (p, st).

(** A synchronous step inside an [async] function: a throw rejects. *)
Definition sync {A : Type} (c : World -> Completion A) : Async A :=
  fun st =>
    match c (world st) with
    | Normal a => (Fulfilled a, st)
    | Abrupt e => (Rejected e, st)
    end.

(** [fetch(url, init)] *)
Definition fetch (req : Request) : Async Response :=
  fun st =>
    let (r, w) := send req (world st) in
    (r, {| world := w; issued := issued st ++ [req] |}).

End Async.

(** ** src/util/geoserver.ts *)

(** Calling [response.text()] completes normally and hands back a promise:
    node-fetch reports every failure to read the body by rejecting it. *)
Definition Response_text (response : Response) : Completion (Settled string) :=
  Normal (text response).

Definition Settled_map {A B : Type} (f : A -> B) (p : Settled A) : Settled B :=
  match p with
  | Fulfilled a => Fulfilled (f a)
  | Rejected e => Rejected e
  end.

Section Util.
Context {T : Transport}.

(** [try { return response.text() } catch (e) { }]: the promise is returned
    without [await], so the [try] block only covers the call itself; the
    promise of the function then follows the returned one.  The [catch] branch
    returns nothing ([None] is [undefined]). *)
Definition getGeoServerResponseText (response : Response) : Async (option string) :=
  match Response_text response with
  | Normal promise => await (Settled_map Some promise)
  | Abrupt _ => ret None
  end.

(** The function its [catch] branch describes: the body read is awaited
    inside the [try] block, so a failed read gives nothing. *)
Definition getGeoServerResponseText_awaited (response : Response) : Async (option string) :=
  catch (t <- await (text response) ;; ret (Some t)) (fun _ => ret None).

End Util.

(** [new GeoServerResponseError(message, geoServerOutput)]: [null] ([None])
    or an empty message gives the default one. *)
Definition new_GeoServerResponseError (message : option string)
  (geoServerOutput : option string) : JsError :=
  GeoServerResponseError (string_or_else message "GeoServer Response Error")
                         geoServerOutput.

(** ** src/about.ts *)

Module AboutClient.

Record t : Type := new { url : string; auth : string }.

Section Methods.
Context {T : Transport}.

Definition getVersion (this : t) : Async JsValue :=
  let url := url this ++ "about/version.json" in
  response <- fetch {| req_url := url;
                       req_method := GET;
                       req_headers := [("Authorization", auth this)];
                       req_body := None |} ;;
  if negb (ok response) then
    geoServerResponse <- getGeoServerResponseText response ;;
    raise (new_GeoServerResponseError None geoServerResponse)
  else
    await (json response).

Definition exists_ (this : t) : Async bool :=
  catch (versionInfo <- getVersion this ;;
         ret (truthy versionInfo))
        (fun _ => ret false).

End Methods.
End AboutClient.

(** ** src/workspace.ts *)

Module WorkspaceClient.

Record t : Type := new { url : string; auth : string }.

Section Methods.
Context {T : Transport}.

Definition getAll (this : t) : Async JsValue :=
  response <- fetch {| req_url := url this ++ "workspaces.json";
                       req_method := GET;
                       req_headers := [("Authorization", auth this)];
                       req_body := None |} ;;
  if negb (ok response) then
    geoServerResponse <- getGeoServerResponseText response ;;
    raise (new_GeoServerResponseError None geoServerResponse)
  else
    await (json response).

Definition get (this : t) (name : string) : Async JsValue :=
  response <- fetch {| req_url := url this ++ "workspaces/" ++ name ++ ".json";
                       req_method := GET;
                       req_headers := [("Authorization", auth this)];
                       req_body := None |} ;;
  if negb (ok response) then
    let grc := AboutClient.new (url this) (auth this) in
    reachable <- AboutClient.exists_ grc ;;
    if (reachable : bool) then
      (* GeoServer exists, but requested item does not exist, we return empty *)
      ret JUndefined
    else
      (* There was a general problem with GeoServer *)
      geoServerResponse <- getGeoServerResponseText response ;;
      raise (new_GeoServerResponseError None geoServerResponse)
  else
    await (json response).

Definition create (this : t) (name : string) : Async string :=
  let body := JObj [("workspace", JObj [("name", JStr name)])] in
  response <- fetch {| req_url := url this ++ "workspaces";
                       req_method := POST;
                       req_headers := [("Authorization", auth this);
                                       ("Content-Type", "application/json")];
                       req_body := option_map BodyText (JSON_stringify body) |} ;;
  if negb (ok response) then
    geoServerResponse <- getGeoServerResponseText response ;;
    if (status response =? 409)%Z then
      raise (new_GeoServerResponseError
               (Some "Unable to add workspace as it already exists") geoServerResponse)
    else
      raise (new_GeoServerResponseError None geoServerResponse)
  else
    await (text response).

(** [recurse] is a boolean; appending it to the URL prints [true] or [false]. *)
Definition delete (this : t) (name : string) (recurse : bool) : Async unit :=
  response <- fetch {| req_url := url this ++ "workspaces/" ++ name ++ "?recurse="
                                  ++ (if recurse then "true" else "false");
                       req_method := DELETE;
                       req_headers := [("Authorization", auth this)];
                       req_body := None |} ;;
  if negb (ok response) then
    geoServerResponse <- getGeoServerResponseText response ;;
    if (status response =? 400)%Z then
      (* the docs say code 403, but apparently it is code 400 *)
      raise (new_GeoServerResponseError
               (Some "Workspace or related Namespace is not empty (and recurse not true)")
               geoServerResponse)
    else if (status response =? 404)%Z then
      raise (new_GeoServerResponseError (Some "Workspace doesn't exist") geoServerResponse)
    else
      raise (new_GeoServerResponseError None geoServerResponse)
  else
    ret tt.

End Methods.
End WorkspaceClient.

(** ** src/namespace.ts *)

Module NamespaceClient.

Record t : Type := new { url : string; auth : string }.

Section Methods.
Context {T : Transport}.

Definition getAll (this : t) : Async JsValue :=
  response <- fetch {| req_url := url this ++ "namespaces.json";
                       req_method := GET;
                       req_headers := [("Authorization", auth this)];
                       req_body := None |} ;;
  if negb (ok response) then
    geoServerResponse <- getGeoServerResponseText response ;;
    raise (new_GeoServerResponseError None geoServerResponse)
  else
    await (json response).

Definition create (this : t) (prefix uri : string) : Async string :=
  let body := JObj [("namespace", JObj [("prefix", JStr prefix); ("uri", JStr uri)])] in
  response <- fetch {| req_url := url this ++ "namespaces";
                       req_method := POST;
                       req_headers := [("Authorization", auth this);
                                       ("Content-Type", "application/json")];
                       req_body := option_map BodyText (JSON_stringify body) |} ;;
  if negb (ok response) then
    geoServerResponse <- getGeoServerResponseText response ;;
    raise (new_GeoServerResponseError None geoServerResponse)
  else
    await (text response).

Definition get (this : t) (name : string) : Async JsValue :=
  response <- fetch {| req_url := url this ++ "namespaces/" ++ name ++ ".json";
                       req_method := GET;
                       req_headers := [("Authorization", auth this)];
                       req_body := None |} ;;
  if negb (ok response) then
    let grc := AboutClient.new (url this) (auth this) in
    reachable <- AboutClient.exists_ grc ;;
    if (reachable : bool) then
      ret JUndefined
    else
      geoServerResponse <- getGeoServerResponseText response ;;
      raise (new_GeoServerResponseError None geoServerResponse)
  else
    await (json response).

Definition delete (this : t) (name : string) : Async unit :=
  response <- fetch {| req_url := url this ++ "namespaces/" ++ name;
                       req_method := DELETE;
                       req_headers := [("Authorization", auth this)];
                       req_body := None |} ;;
  if negb (ok response) then
    geoServerResponse <- getGeoServerResponseText response ;;
    if (status response =? 403)%Z then
      raise (new_GeoServerResponseError
               (Some "Namespace or related Workspace is not empty (and recurse not true)")
               geoServerResponse)
    else if (status response =? 404)%Z then
      raise (new_GeoServerResponseError (Some "Namespace doesn't exist") geoServerResponse)
    else if (status response =? 405)%Z then
      raise (new_GeoServerResponseError (Some "Can't delete default namespace")
               geoServerResponse)
    else
      raise (new_GeoServerResponseError (Some "Response not recognized") geoServerResponse)
  else
    ret tt.

End Methods.
End NamespaceClient.

(** ** src/datastore.ts *)

Module DatastoreClient.

Record t : Type := new { url : string; auth : string }.

(** One entry of a [connectionParameters] list. *)
Definition entry (key : string) (value : JsValue) : JsValue :=
  JObj [("@key", JStr key); ("$", value)].

Section Methods.
Context {T : Transport}.

Definition getStores (this : t) (workspace storeType : string) : Async JsValue :=
  response <- fetch {| req_url := url this ++ "workspaces/" ++ workspace ++ "/"
                                  ++ storeType ++ ".json";
                       req_method := GET;
                       req_headers := [("Authorization", auth this)];
                       req_body := None |} ;;
  if negb (ok response) then
    geoServerResponse <- getGeoServerResponseText response ;;
    raise (new_GeoServerResponseError None geoServerResponse)
  else
    await (json response).

Definition getDataStores (this : t) (workspace : string) : Async JsValue :=
  getStores this workspace "datastores".

Definition getCoverageStores (this : t) (workspace : string) : Async JsValue :=
  getStores this workspace "coveragestores".

Definition getWmsStores (this : t) (workspace : string) : Async JsValue :=
  getStores this workspace "wmsstores".

Definition getWmtsStores (this : t) (workspace : string) : Async JsValue :=
  getStores this workspace "wmtsstores".

Definition getStore (this : t) (workspace storeName storeType : string) : Async JsValue :=
  let url := url this ++ "workspaces/" ++ workspace ++ "/" ++ storeType ++ "/"
             ++ storeName ++ ".json" in
  response <- fetch {| req_url := url;
                       req_method := GET;
                       req_headers := [("Authorization", auth this)];
                       req_body := None |} ;;
  if negb (ok response) then
    let grc := AboutClient.new (DatastoreClient.url this) (auth this) in
    reachable <- AboutClient.exists_ grc ;;
    if (reachable : bool) then
      ret JUndefined
    else
      geoServerResponse <- getGeoServerResponseText response ;;
      raise (new_GeoServerResponseError None geoServerResponse)
  else
    await (json response).

Definition getDataStore (this : t) (workspace dataStore : string) : Async JsValue :=
  getStore this workspace dataStore "datastores".

Definition getCoverageStore (this : t) (workspace covStore : string) : Async JsValue :=
  getStore this workspace covStore "coveragestores".

Definition getWmsStore (this : t) (workspace wmsStore : string) : Async JsValue :=
  getStore this workspace wmsStore "wmsstores".

Definition getWmtsStore (this : t) (workspace wmtsStore : string) : Async JsValue :=
  getStore this workspace wmtsStore "wmtsstores".

(** [layerTitle] may be left out ([None]) or empty. *)
Definition createGeotiffFromFile (this : t)
  (workspace coverageStore layerName : string) (layerTitle : option string)
  (filePath : string) : Async string :=
  let lyrTitle := string_or_else layerTitle layerName in
  stats <- sync (statSync filePath) ;;
  let fileSizeInBytes := size stats in
  let readStream := BodyStream filePath in
  let url := url this ++ "workspaces/" ++ workspace ++ "/coveragestores/"
             ++ coverageStore ++ "/file.geotiff" in
  let url := url ++ "?filename=" ++ lyrTitle ++ "&coverageName=" ++ layerName in
  response <- fetch {| req_url := url;
                       req_method := PUT;
                       req_headers :=
                         [("Authorization", auth this);
                          ("Content-Type", "image/tiff");
                          ("Content-length", Number_toString (Z.of_N fileSizeInBytes))];
                       req_body := Some readStream |} ;;
  if negb (ok response) then
    geoServerResponse <- getGeoServerResponseText response ;;
    raise (new_GeoServerResponseError None geoServerResponse)
  else
    await (text response).

(** The body [createPostgisStore] serialises; [exposePk] may be left out. *)
Definition postgisStoreBody (workspace namespaceUri dataStore pgHost : string)
  (pgPort : Z) (pgUser pgPassword pgSchema pgDb : string) (exposePk : option bool)
  : JsValue :=
  JObj [("dataStore",
     JObj [("name", JStr dataStore);
           ("type", JStr "PostGIS");
           ("enabled", JBool true);
           ("workspace", JObj [("name", JStr workspace)]);
           ("connectionParameters",
              JObj [("entry",
                 JArr [entry "dbtype" (JStr "postgis");
                       entry "schema" (JStr pgSchema);
                       entry "database" (JStr pgDb);
                       entry "host" (JStr pgHost);
                       entry "port" (JNum pgPort);
                       entry "passwd" (JStr pgPassword);
                       entry "namespace" (JStr namespaceUri);
                       entry "user" (JStr pgUser);
                       entry "Expose primary keys"
                             (JBool (bool_or_else exposePk false))])])])].

Definition createPostgisStore (this : t)
  (workspace namespaceUri dataStore pgHost : string) (pgPort : Z)
  (pgUser pgPassword pgSchema pgDb : string) (exposePk : option bool) : Async unit :=
  let body := postgisStoreBody workspace namespaceUri dataStore pgHost pgPort
                pgUser pgPassword pgSchema pgDb exposePk in
  let url := url this ++ "workspaces/" ++ workspace ++ "/datastores" in
  response <- fetch {| req_url := url;
                       req_method := POST;
                       req_headers := [("Authorization", auth this);
                                       ("Content-Type", "application/json")];
                       req_body := option_map BodyText (JSON_stringify body) |} ;;
  if negb (ok response) then
    geoServerResponse <- getGeoServerResponseText response ;;
    raise (new_GeoServerResponseError None geoServerResponse)
  else
    ret tt.

Definition createImageMosaicStore (this : t)
  (workspace coverageStore zipArchivePath : string) : Async string :=
  let readStream := BodyStream zipArchivePath in
  let url := url this ++ "workspaces/" ++ workspace ++ "/coveragestores/"
             ++ coverageStore ++ "/file.imagemosaic" in
  response <- fetch {| req_url := url;
                       req_method := PUT;
                       req_headers := [("Authorization", auth this);
                                       ("Content-Type", "application/zip")];
                       req_body := Some readStream |} ;;
  if negb (ok response) then
    geoServerResponse <- getGeoServerResponseText response ;;
    raise (new_GeoServerResponseError None geoServerResponse)
  else
    await (text response).

Definition createWmsStore (this : t)
  (workspace dataStore wmsCapabilitiesUrl : string) : Async unit :=
  let body := JObj [("wmsStore",
                JObj [("name", JStr dataStore);
                      ("type", JStr "WMS");
                      ("capabilitiesURL", JStr wmsCapabilitiesUrl)])] in
  let url := url this ++ "workspaces/" ++ workspace ++ "/wmsstores" in
  response <- fetch {| req_url := url;
                       req_method := POST;
                       req_headers := [("Authorization", auth this);
                                       ("Content-Type", "application/json")];
                       req_body := option_map BodyText (JSON_stringify body) |} ;;
  if negb (ok response) then
    geoServerResponse <- getGeoServerResponseText response ;;
    raise (new_GeoServerResponseError None geoServerResponse)
  else
    ret tt.

Definition createWmtsStore (this : t)
  (workspace dataStore wmtsCapabilitiesUrl : string) : Async unit :=
  let body := JObj [("wmtsStore",
                JObj [("name", JStr dataStore);
                      ("type", JStr "WMTS");
                      ("capabilitiesURL", JStr wmtsCapabilitiesUrl)])] in
  let url := url this ++ "workspaces/" ++ workspace ++ "/wmtsstores" in
  response <- fetch {| req_url := url;
                       req_method := POST;
                       req_headers := [("Authorization", auth this);
                                       ("Content-Type", "application/json")];
                       req_body := option_map BodyText (JSON_stringify body) |} ;;
  if negb (ok response) then
    geoServerResponse <- getGeoServerResponseText response ;;
    raise (new_GeoServerResponseError None geoServerResponse)
  else
    ret tt.

(** [useHttpConnectionPooling = true]: the default applies to an omitted
    argument only. *)
Definition createWfsStore (this : t)
  (workspace dataStore wfsCapabilitiesUrl namespaceUrl : string)
  (useHttpConnectionPooling : option bool) : Async unit :=
  let useHttpConnectionPooling :=
    match useHttpConnectionPooling with Some b => b | None => true end in
  let body := JObj [("dataStore",
                JObj [("name", JStr dataStore);
                      ("type", JStr "Web Feature Server (NG)");
                      ("connectionParameters",
                         JObj [("entry",
                            JArr [entry "WFSDataStoreFactory:GET_CAPABILITIES_URL"
                                        (JStr wfsCapabilitiesUrl);
                                  entry "namespace" (JStr namespaceUrl);
                                  entry "WFSDataStoreFactory:USE_HTTP_CONNECTION_POOLING"
                                        (JBool useHttpConnectionPooling)])])])] in
  let url := url this ++ "workspaces/" ++ workspace ++ "/datastores" in
  response <- fetch {| req_url := url;
                       req_method := POST;
                       req_headers := [("Authorization", auth this);
                                       ("Content-Type", "application/json")];
                       req_body := option_map BodyText (JSON_stringify body) |} ;;
  if negb (ok response) then
    geoServerResponse <- getGeoServerResponseText response ;;
    raise (new_GeoServerResponseError None geoServerResponse)
  else
    ret tt.

Definition deleteDataStore (this : t) (workspace dataStore recurse : string)
  : Async unit :=
  let url := url this ++ "workspaces/" ++ workspace ++ "/datastores/" ++ dataStore in
  let url := url ++ "?recurse=" ++ recurse in
  response <- fetch {| req_url := url;
                       req_method := DELETE;
                       req_headers := [("Authorization", auth this)];
                       req_body := None |} ;;
  if negb (ok response) then
    geoServerResponse <- getGeoServerResponseText response ;;
    raise (new_GeoServerResponseError None geoServerResponse)
  else
    ret tt.

Definition deleteCoverageStore (this : t) (workspace coverageStore recurse : string)
  : Async unit :=
  let url := url this ++ "workspaces/" ++ workspace ++ "/coveragestores/"
             ++ coverageStore in
  let url := url ++ "?recurse=" ++ recurse in
  response <- fetch {| req_url := url;
                       req_method := DELETE;
                       req_headers := [("Authorization", auth this)];
                       req_body := None |} ;;
  if negb (ok response) then
    geoServerResponse <- getGeoServerResponseText response ;;
    if (status response =? 401)%Z then
      raise (new_GeoServerResponseError
               (Some ("Deletion failed. There might be dependant objects to " ++
                      "this store. Delete them first or call this with "
                      ++ String dquote ("recurse=false" ++ String dquote EmptyString)))
               geoServerResponse)
    else
      raise (new_GeoServerResponseError None geoServerResponse)
  else
    ret tt.

Definition createGpkgStore (this : t) (workspace dataStore gpkgPath : string)
  : Async unit :=
  let body := JObj [("dataStore",
                JObj [("name", JStr dataStore);
                      ("type", JStr "GeoPackage");
                      ("connectionParameters",
                         JObj [("entry",
                            JArr [entry "database" (JStr ("file:" ++ gpkgPath));
                                  entry "dbtype" (JStr "geopkg")])])])] in
  let url := url this ++ "workspaces/" ++ workspace ++ "/datastores" in
  response <- fetch {| req_url := url;
                       req_method := POST;
                       req_headers := [("Authorization", auth this);
                                       ("Content-Type", "application/json")];
                       req_body := option_map BodyText (JSON_stringify body) |} ;;
  if negb (ok response) then
    geoServerResponse <- getGeoServerResponseText response ;;
    raise (new_GeoServerResponseError None geoServerResponse)
  else
    ret tt.

End Methods.
End DatastoreClient.

(** ** src/settings.ts *)

(** A pure expression evaluated inside an [async] function: a throw rejects. *)
Definition eval {T : Transport} {A : Type} (c : Completion A) : Async A :=
  sync (fun _ => c).

(** The object [o] after one of its properties was replaced in place. *)
Definition with_prop (o : JsValue) (name : string) (v : JsValue) : JsValue :=
  match o with
  | JObj props => JObj (assoc_set name v props)
  | _ => o
  end.

(** An optional string argument as a value. *)
Definition opt_str (a : option string) : JsValue :=
  match a with
  | Some s => JStr s
  | None => JUndefined
  end.

Module SettingsClient.

Record t : Type := new { url : string; auth : string }.

Section Methods.
Context {T : Transport}.

Definition getSettings (this : t) : Async JsValue :=
  response <- fetch {| req_url := url this ++ "settings.json";
                       req_method := GET;
                       req_headers := [("Authorization", auth this)];
                       req_body := None |} ;;
  if negb (ok response) then
    geoServerResponse <- getGeoServerResponseText response ;;
    raise (new_GeoServerResponseError None geoServerResponse)
  else
    await (json response).

Definition updateSettings (this : t) (settings : JsValue) : Async unit :=
  response <- fetch {| req_url := url this ++ "settings";
                       req_method := PUT;
                       req_headers := [("Authorization", auth this);
                                       ("Content-Type", "application/json")];
                       req_body := option_map BodyText (JSON_stringify settings) |} ;;
  if negb (ok response) then
    geoServerResponse <- getGeoServerResponseText response ;;
    raise (new_GeoServerResponseError None geoServerResponse)
  else
    ret tt.

(** [!settingsJson.global && !settingsJson.global.settings]: the right operand
    is evaluated only when the left one is true. *)
Definition settings_guard (settingsJson : JsValue) : Async bool :=
  global <- eval (get_prop settingsJson "global") ;;
  if negb (truthy global) then
    global <- eval (get_prop settingsJson "global") ;;
    settings <- eval (get_prop global "settings") ;;
    ret (negb (truthy settings))
  else
    ret false.

(** [settingsJson.global.settings.proxyBaseUrl = proxyBaseUrl], giving
    [settingsJson] as it is after the assignment. *)
Definition assign_proxyBaseUrl (settingsJson : JsValue) (proxyBaseUrl : string)
  : Async JsValue :=
  global <- eval (get_prop settingsJson "global") ;;
  settings <- eval (get_prop global "settings") ;;
  settings' <- eval (set_prop settings "proxyBaseUrl" (JStr proxyBaseUrl)) ;;
  ret (with_prop settingsJson "global" (with_prop global "settings" settings')).

(** The result is [false] from the guard, and [undefined] at the end. *)
Definition updateProxyBaseUrl (this : t) (proxyBaseUrl : string) : Async JsValue :=
  settingsJson <- getSettings this ;;
  (* check if settings are correctly formatted *)
  malformed <- settings_guard settingsJson ;;
  if (malformed : bool) then
    ret (JBool false)
  else
    (* add proxyBaseUrl to settings *)
    settingsJson <- assign_proxyBaseUrl settingsJson proxyBaseUrl ;;
    updateSettings this settingsJson ;;
    ret JUndefined.

Definition getContactInformation (this : t) : Async JsValue :=
  response <- fetch {| req_url := url this ++ "settings/contact";
                       req_method := GET;
                       req_headers := [("Authorization", auth this)];
                       req_body := None |} ;;
  if negb (ok response) then
    geoServerResponse <- getGeoServerResponseText response ;;
    raise (new_GeoServerResponseError None geoServerResponse)
  else
    await (json response).

Definition updateContactInformation (this : t)
  (address city country postalCode state email organization contactPerson
   phoneNumber : option string) : Async unit :=
  let contact := JObj [("address", opt_str address);
                       ("addressCity", opt_str city);
                       ("addressCountry", opt_str country);
                       ("addressPostalCode", opt_str postalCode);
                       ("addressState", opt_str state);
                       ("contactEmail", opt_str email);
                       ("contactOrganization", opt_str organization);
                       ("contactPerson", opt_str contactPerson);
                       ("contactVoice", opt_str phoneNumber)] in
  let body := JObj [("contact", contact)] in
  let url := url this ++ "settings/contact" in
  response <- fetch {| req_url := url;
                       req_method := PUT;
                       req_headers := [("Authorization", auth this);
                                       ("Content-Type", "application/json")];
                       req_body := option_map BodyText (JSON_stringify body) |} ;;
  if negb (ok response) then
    geoServerResponse <- getGeoServerResponseText response ;;
    raise (new_GeoServerResponseError None geoServerResponse)
  else
    ret tt.

End Methods.
End SettingsClient.

(** ** geoserver-rest-client.ts *)

(** Modelled from the spec: src/layer.ts is not available; the layer client is
    constructed once and handed the shared connection parameters, which it
    holds. *)
Module LayerClient.
Record t : Type := new { url : string; auth : string }.
End LayerClient.

(** Modelled from the spec: src/style.ts is not available; the style client is
    constructed once and handed the shared connection parameters, which it
    holds. *)
Module StyleClient.
Record t : Type := new { url : string; auth : string }.
End StyleClient.

(** Modelled from the spec: src/imagemosaic.ts is not available; the image
    mosaic client is constructed once and handed the shared connection
    parameters, which it holds. *)
Module ImageMosaicClient.
Record t : Type := new { url : string; auth : string }.
End ImageMosaicClient.

(** Modelled from the spec: src/security.ts is not available; the security
    client is constructed once and handed the shared connection parameters,
    which it holds. *)
Module SecurityClient.
Record t : Type := new { url : string; auth : string }.
End SecurityClient.

(** Modelled from the spec: src/reset-reload.ts is not available; the
    reset/reload client is constructed once and handed the shared connection
    parameters, which it holds. *)
Module ResetReloadClient.
Record t : Type := new { url : string; auth : string }.
End ResetReloadClient.

Module GeoServerRestClient.

Record t : Type := mk {
  url : string;
  auth : string;
  layers : LayerClient.t;
  styles : StyleClient.t;
  workspaces : WorkspaceClient.t;
  namespaces : NamespaceClient.t;
  datastores : DatastoreClient.t;
  imagemosaics : ImageMosaicClient.t;
  security : SecurityClient.t;
  settings : SettingsClient.t;
  about : AboutClient.t;
  resetReload : ResetReloadClient.t
}.

(** The constructor. *)
Definition new (url user password : string) : t :=
  let this_url := if endsWith url "/" then url else url ++ "/" in
  let this_auth := "Basic " ++ base64 (user ++ ":" ++ password) in
  {| url := this_url;
     auth := this_auth;
     layers := LayerClient.new this_url this_auth;
     styles := StyleClient.new this_url this_auth;
     workspaces := WorkspaceClient.new this_url this_auth;
     namespaces := NamespaceClient.new this_url this_auth;
     datastores := DatastoreClient.new this_url this_auth;
     imagemosaics := ImageMosaicClient.new this_url this_auth;
     security := SecurityClient.new this_url this_auth;
     settings := SettingsClient.new this_url this_auth;
     about := AboutClient.new this_url this_auth;
     resetReload := ResetReloadClient.new this_url this_auth |}.

(** The pair of constructor arguments each resource client was given. *)
Definition contexts (c : t) : list (string * string) :=
  [(LayerClient.url (layers c), LayerClient.auth (layers c));
   (StyleClient.url (styles c), StyleClient.auth (styles c));
   (WorkspaceClient.url (workspaces c), WorkspaceClient.auth (workspaces c));
   (NamespaceClient.url (namespaces c), NamespaceClient.auth (namespaces c));
   (DatastoreClient.url (datastores c), DatastoreClient.auth (datastores c));
   (ImageMosaicClient.url (imagemosaics c), ImageMosaicClient.auth (imagemosaics c));
   (SecurityClient.url (security c), SecurityClient.auth (security c));
   (SettingsClient.url (settings c), SettingsClient.auth (settings c));
   (AboutClient.url (about c), AboutClient.auth (about c));
   (ResetReloadClient.url (resetReload c), ResetReloadClient.auth (resetReload c))].

End GeoServerRestClient.

(** ** A scripted transport *)

(** A world for running the clients on concrete exchanges: the outcomes the
    server will give, in order, and the sizes of the local files.  Once the
    script is used up every request fails, as with an unreachable server. *)
Record Script : Type := mkScript {
  replies : list (Settled Response);
  files : list (string * N)
}.

Fixpoint file_size (path : string) (fs : list (string * N)) : option N :=
  match fs with
  | [] => None
  | (p, n) :: rest => if p =? path then Some n else file_size path rest
  end.

Definition Scripted : Transport :=
  {| World := Script;
     send := fun _ w =>
       match replies w with
       | [] => (Rejected (FetchError "ECONNREFUSED"), w)
       | r :: rest => (r, {| replies := rest; files := files w |})
       end;
     statSync := fun path w =>
       match file_size path (files w) with
       | Some n => Normal {| size := n |}
       | None => Abrupt (SystemError "ENOENT")
       end |}.

(** The state in which nothing was requested yet. *)
Definition start {T : Transport} (w : World) : State :=
  {| world := w; issued := [] |}.

(** ** The single-item lookups *)

(** The operations that fetch one item by name. *)
Inductive Lookup : Type :=
| WorkspaceGet (c : WorkspaceClient.t) (name : string)
| NamespaceGet (c : NamespaceClient.t) (name : string)
| GetStore (c : DatastoreClient.t) (workspace storeName storeType : string)
| GetDataStore (c : DatastoreClient.t) (workspace dataStore : string)
| GetCoverageStore (c : DatastoreClient.t) (workspace covStore : string)
| GetWmsStore (c : DatastoreClient.t) (workspace wmsStore : string)
| GetWmtsStore (c : DatastoreClient.t) (workspace wmtsStore : string).

Definition lookup {T : Transport} (l : Lookup) : Async JsValue :=
  match l with
  | WorkspaceGet c name => WorkspaceClient.get c name
  | NamespaceGet c name => NamespaceClient.get c name
  | GetStore c workspace storeName storeType =>
      DatastoreClient.getStore c workspace storeName storeType
  | GetDataStore c workspace dataStore =>
      DatastoreClient.getDataStore c workspace dataStore
  | GetCoverageStore c workspace covStore =>
      DatastoreClient.getCoverageStore c workspace covStore
  | GetWmsStore c workspace wmsStore =>
      DatastoreClient.getWmsStore c workspace wmsStore
  | GetWmtsStore c workspace wmtsStore =>
      DatastoreClient.getWmtsStore c workspace wmtsStore
  end.

(** The connection parameters of the client a lookup runs on. *)
Definition lookup_context (l : Lookup) : string * string :=
  match l with
  | WorkspaceGet c _ => (WorkspaceClient.url c, WorkspaceClient.auth c)
  | NamespaceGet c _ => (NamespaceClient.url c, NamespaceClient.auth c)
  | GetStore c _ _ _ | GetDataStore c _ _ | GetCoverageStore c _ _
  | GetWmsStore c _ _ | GetWmtsStore c _ _ =>
      (DatastoreClient.url c, DatastoreClient.auth c)
  end.

(** The canonical path of the item, below the base URL. *)
Definition lookup_path (l : Lookup) : string :=
  match l with
  | WorkspaceGet _ name => "workspaces/" ++ name ++ ".json"
  | NamespaceGet _ name => "namespaces/" ++ name ++ ".json"
  | GetStore _ workspace storeName storeType =>
      "workspaces/" ++ workspace ++ "/" ++ storeType ++ "/" ++ storeName ++ ".json"
  | GetDataStore _ workspace storeName =>
      "workspaces/" ++ workspace ++ "/datastores/" ++ storeName ++ ".json"
  | GetCoverageStore _ workspace storeName =>
      "workspaces/" ++ workspace ++ "/coveragestores/" ++ storeName ++ ".json"
  | GetWmsStore _ workspace storeName =>
      "workspaces/" ++ workspace ++ "/wmsstores/" ++ storeName ++ ".json"
  | GetWmtsStore _ workspace storeName =>
      "workspaces/" ++ workspace ++ "/wmtsstores/" ++ storeName ++ ".json"
  end.

(** An authenticated GET. *)
Definition get_request (url auth : string) : Request :=
  {| req_url := url;
     req_method := GET;
     req_headers := [("Authorization", auth)];
     req_body := None |}.

Definition lookup_request (l : Lookup) : Request :=
  get_request (fst (lookup_context l) ++ lookup_path l) (snd (lookup_context l)).

(** The prober a lookup falls back on. *)
Definition lookup_prober (l : Lookup) : AboutClient.t :=
  AboutClient.new (fst (lookup_context l)) (snd (lookup_context l)).

(** The request of the prober. *)
Definition version_request (this : AboutClient.t) : Request :=
  get_request (AboutClient.url this ++ "about/version.json") (AboutClient.auth this).

(** The read pattern the three clients repeat: GET the item; on a failure
    status ask the prober, and return nothing when the server answers. *)
Definition read_item {T : Transport} (url auth path : string) : Async JsValue :=
  response <- fetch (get_request (url ++ path) auth) ;;
  if negb (ok response) then
    reachable <- AboutClient.exists_ (AboutClient.new url auth) ;;
    if (reachable : bool) then
      ret JUndefined
    else
      geoServerResponse <- getGeoServerResponseText response ;;
      raise (new_GeoServerResponseError None geoServerResponse)
  else
    await (json response).

(** The state after [req] was sent from [st]. *)
Definition sent {T : Transport} (req : Request) (st : State) : State :=
  {| world := snd (send req (world st)); issued := issued st ++ [req] |}.

(** ** Classified failures *)

Definition default_message : string := "GeoServer Response Error".

(** The promise was rejected; and when the body of [response] could be read,
    as [t], it was rejected with the classified failure that has this message
    and carries [t]. *)
Definition raises_classified {A : Type} (outcome : Settled A) (message : string)
  (response : Response) : Prop :=
  exists e, outcome = Rejected e /\
    forall t, text response = Fulfilled t ->
      e = GeoServerResponseError message (Some t).

(** A classified failure, as opposed to an error of the transport or of the
    language. *)
Definition classified (e : JsError) : bool :=
  match e with
  | GeoServerResponseError _ _ => true
  | _ => false
  end.

(** A failure that says more than the generic one: a classified failure with
    a message of its own. *)
Definition specific_failure (e : JsError) : bool :=
  match e with
  | GeoServerResponseError message _ => negb (message =? default_message)
  | _ => false
  end.

(** ** The requests of the write and delete operations *)

(** An authenticated POST of a JSON document. *)
Definition post_json (url auth : string) (body : JsValue) : Request :=
  {| req_url := url;
     req_method := POST;
     req_headers := [("Authorization", auth); ("Content-Type", "application/json")];
     req_body := option_map BodyText (JSON_stringify body) |}.

(** An authenticated DELETE. *)
Definition delete_request (url auth : string) : Request :=
  {| req_url := url;
     req_method := DELETE;
     req_headers := [("Authorization", auth)];
     req_body := None |}.

Definition workspace_create_request (c : WorkspaceClient.t) (name : string) : Request :=
  post_json (WorkspaceClient.url c ++ "workspaces") (WorkspaceClient.auth c)
    (JObj [("workspace", JObj [("name", JStr name)])]).

Definition namespace_create_request (c : NamespaceClient.t) (prefix uri : string)
  : Request :=
  post_json (NamespaceClient.url c ++ "namespaces") (NamespaceClient.auth c)
    (JObj [("namespace", JObj [("prefix", JStr prefix); ("uri", JStr uri)])]).

Definition workspace_delete_request (c : WorkspaceClient.t) (name : string)
  (recurse : bool) : Request :=
  delete_request
    (WorkspaceClient.url c ++ "workspaces/" ++ name ++ "?recurse="
     ++ (if recurse then "true" else "false"))
    (WorkspaceClient.auth c).

Definition namespace_delete_request (c : NamespaceClient.t) (name : string) : Request :=
  delete_request (NamespaceClient.url c ++ "namespaces/" ++ name)
    (NamespaceClient.auth c).

(** ** Reading a document *)

(** The value found by following property names from [v] down. *)
Fixpoint at_path (v : JsValue) (path : list string) : option JsValue :=
  match path with
  | [] => Some v
  | k :: rest =>
      match v with
      | JObj props =>
          match assoc k props with
          | Some x => at_path x rest
          | None => None
          end
      | _ => None
      end
  end.

(** The key of a connection parameter entry. *)
Definition entry_key (e : JsValue) : option string :=
  match at_path e ["@key"] with
  | Some (JStr k) => Some k
  | _ => None
  end.

(** The value of a connection parameter entry. *)
Definition entry_value (e : JsValue) : option JsValue := at_path e ["$"].

(** ** Constructing the facade inside a program *)

(** [new GeoServerRestClient(url, user, password)] as a step: the constructor
    is synchronous and calls neither [fetch] nor the file system. *)
Definition construct {T : Transport} (url user password : string)
  : Async GeoServerRestClient.t :=
  ret (GeoServerRestClient.new url user password).

(** ** The GeoTIFF upload *)

(** The path of the upload, below the base URL and before the query. *)
Definition geotiff_path (workspace coverageStore : string) : string :=
  "workspaces/" ++ workspace ++ "/coveragestores/" ++ coverageStore ++ "/file.geotiff".

(** The requests that an operation added to the log. *)
Definition newly_issued {T : Transport} {A : Type} (op : Async A) (st : State)
  : list Request :=
  skipn (List.length (issued st)) (issued (snd (op st))).

(** ** Sample exchanges *)

Definition sample_url : string := "http://localhost:8080/geoserver/rest/".
Definition sample_auth : string := "Basic YWRtaW46Z2Vvc2VydmVy".

(** A state of the scripted transport in which nothing was requested yet. *)
Definition script (rs : list (Settled Response)) (fs : list (string * N))
  : @State Scripted :=
  @start Scripted {| replies := rs; files := fs |}.

Definition undecodable : Settled JsValue :=
  Rejected (FetchError "invalid json response body").

(** The answer for an item that is not there. *)
Definition not_found : Response :=
  {| status := 404;
     text := Fulfilled "No such workspace: 'w1' found";
     json := undecodable |}.

(** The answer of a server that has the item already. *)
Definition conflict : Response :=
  {| status := 409;
     text := Fulfilled "Workspace 'w1' already exists";
     json := undecodable |}.

(** The answer to deleting the default namespace. *)
Definition not_allowed : Response :=
  {| status := 405;
     text := Fulfilled "Method Not Allowed";
     json := undecodable |}.

(** An answer whose body cannot be read. *)
Definition broken_body : Response :=
  {| status := 500;
     text := Rejected (FetchError "Premature close");
     json := Rejected (FetchError "Premature close") |}.

(** The version document of a running server. *)
Definition version_info : JsValue :=
  JObj [("about",
     JObj [("resource",
        JArr [JObj [("@name", JStr "GeoServer"); ("Version", JStr "2.19.0")]])])].

Definition version_ok : Response :=
  {| status := 200;
     text := Fulfilled "about";
     json := Fulfilled version_info |}.

Definition created : Response :=
  {| status := 201; text := Fulfilled "w1"; json := undecodable |}.

(** Settings whose [global] is not an object but [false]. *)
Definition settings_global_false : JsValue := JObj [("global", JBool false)].

(** Settings whose [global] has no [settings]. *)
Definition settings_without_settings : JsValue :=
  JObj [("global", JObj [("jai", JObj [])])].

Definition settings_reply (doc : JsValue) : Response :=
  {| status := 200; text := Fulfilled "settings"; json := Fulfilled doc |}.

(** [NamespaceClient.create] against a server that answers with status [s]
    and says that the namespace exists. *)
Definition namespace_create_on_status (s : Z) : Settled string :=
  fst (NamespaceClient.create (T := Scripted)
         (NamespaceClient.new sample_url sample_auth) "ns1" "http://ns1"
         (script [Fulfilled {| status := s;
                               text := Fulfilled "Namespace 'ns1' already exists";
                               json := undecodable |}] [])).

(** [updateProxyBaseUrl] against a server whose settings are [doc]. *)
Definition update_proxy_on (doc : JsValue) : Settled JsValue * @State Scripted :=
  SettingsClient.updateProxyBaseUrl (T := Scripted)
    (SettingsClient.new sample_url sample_auth) "http://proxy.example/geoserver"
    (script [Fulfilled (settings_reply doc)] []).

(** The upload of a file of 1024 bytes, without a title. *)
Definition sample_upload : @Async Scripted string :=
  DatastoreClient.createGeotiffFromFile (T := Scripted)
    (DatastoreClient.new sample_url sample_auth)
    "my-workspace" "my-rasterstore" "my-raster-name" None
    "test/sample_data/world.geotiff".

Definition sample_files : list (string * N) :=
  [("test/sample_data/world.geotiff", 1024%N)].

(** ** Every operation of the five clients *)

(** One constructor per public method; the single-item lookups come through
    [Lookup]. *)
Inductive Operation : Type :=
| AboutGetVersion (c : AboutClient.t)
| AboutExists (c : AboutClient.t)
| WorkspaceGetAll (c : WorkspaceClient.t)
| WorkspaceCreate (c : WorkspaceClient.t) (name : string)
| WorkspaceDelete (c : WorkspaceClient.t) (name : string) (recurse : bool)
| NamespaceGetAll (c : NamespaceClient.t)
| NamespaceCreate (c : NamespaceClient.t) (prefix uri : string)
| NamespaceDelete (c : NamespaceClient.t) (name : string)
| Single (l : Lookup)
| GetStores (c : DatastoreClient.t) (workspace storeType : string)
| GetDataStores (c : DatastoreClient.t) (workspace : string)
| GetCoverageStores (c : DatastoreClient.t) (workspace : string)
| GetWmsStores (c : DatastoreClient.t) (workspace : string)
| GetWmtsStores (c : DatastoreClient.t) (workspace : string)
| CreateGeotiffFromFile (c : DatastoreClient.t)
    (workspace coverageStore layerName : string) (layerTitle : option string)
    (filePath : string)
| CreatePostgisStore (c : DatastoreClient.t)
    (workspace namespaceUri dataStore pgHost : string) (pgPort : Z)
    (pgUser pgPassword pgSchema pgDb : string) (exposePk : option bool)
| CreateImageMosaicStore (c : DatastoreClient.t)
    (workspace coverageStore zipArchivePath : string)
| CreateWmsStore (c : DatastoreClient.t) (workspace dataStore capabilitiesUrl : string)
| CreateWmtsStore (c : DatastoreClient.t) (workspace dataStore capabilitiesUrl : string)
| CreateWfsStore (c : DatastoreClient.t)
    (workspace dataStore capabilitiesUrl namespaceUrl : string)
    (useHttpConnectionPooling : option bool)
| DeleteDataStore (c : DatastoreClient.t) (workspace dataStore recurse : string)
| DeleteCoverageStore (c : DatastoreClient.t) (workspace coverageStore recurse : string)
| CreateGpkgStore (c : DatastoreClient.t) (workspace dataStore gpkgPath : string)
| GetSettings (c : SettingsClient.t)
| UpdateSettings (c : SettingsClient.t) (settings : JsValue)
| UpdateProxyBaseUrl (c : SettingsClient.t) (proxyBaseUrl : string)
| GetContactInformation (c : SettingsClient.t)
| UpdateContactInformation (c : SettingsClient.t)
    (address city country postalCode state email organization contactPerson
     phoneNumber : option string).

(** Running an operation for its effect and its failure only. *)
Definition discard {T : Transport} {A : Type} (c : Async A) : Async unit :=
  _ <- c ;; ret tt.

Definition perform {T : Transport} (op : Operation) : Async unit :=
  match op with
  | AboutGetVersion c => discard (AboutClient.getVersion c)
  | AboutExists c => discard (AboutClient.exists_ c)
  | WorkspaceGetAll c => discard (WorkspaceClient.getAll c)
  | WorkspaceCreate c name => discard (WorkspaceClient.create c name)
  | WorkspaceDelete c name recurse => WorkspaceClient.delete c name recurse
  | NamespaceGetAll c => discard (NamespaceClient.getAll c)
  | NamespaceCreate c prefix uri => discard (NamespaceClient.create c prefix uri)
  | NamespaceDelete c name => NamespaceClient.delete c name
  | Single l => discard (lookup l)
  | GetStores c workspace storeType =>
      discard (DatastoreClient.getStores c workspace storeType)
  | GetDataStores c workspace => discard (DatastoreClient.getDataStores c workspace)
  | GetCoverageStores c workspace =>
      discard (DatastoreClient.getCoverageStores c workspace)
  | GetWmsStores c workspace => discard (DatastoreClient.getWmsStores c workspace)
  | GetWmtsStores c workspace => discard (DatastoreClient.getWmtsStores c workspace)
  | CreateGeotiffFromFile c workspace coverageStore layerName layerTitle filePath =>
      discard (DatastoreClient.createGeotiffFromFile c workspace coverageStore
                 layerName layerTitle filePath)
  | CreatePostgisStore c workspace namespaceUri dataStore pgHost pgPort pgUser
      pgPassword pgSchema pgDb exposePk =>
      DatastoreClient.createPostgisStore c workspace namespaceUri dataStore pgHost
        pgPort pgUser pgPassword pgSchema pgDb exposePk
  | CreateImageMosaicStore c workspace coverageStore zipArchivePath =>
      discard (DatastoreClient.createImageMosaicStore c workspace coverageStore
                 zipArchivePath)
  | CreateWmsStore c workspace dataStore capabilitiesUrl =>
      DatastoreClient.createWmsStore c workspace dataStore capabilitiesUrl
  | CreateWmtsStore c workspace dataStore capabilitiesUrl =>
      DatastoreClient.createWmtsStore c workspace dataStore capabilitiesUrl
  | CreateWfsStore c workspace dataStore capabilitiesUrl namespaceUrl pooling =>
      DatastoreClient.createWfsStore c workspace dataStore capabilitiesUrl
        namespaceUrl pooling
  | DeleteDataStore c workspace dataStore recurse =>
      DatastoreClient.deleteDataStore c workspace dataStore recurse
  | DeleteCoverageStore c workspace coverageStore recurse =>
      DatastoreClient.deleteCoverageStore c workspace coverageStore recurse
  | CreateGpkgStore c workspace dataStore gpkgPath =>
      DatastoreClient.createGpkgStore c workspace dataStore gpkgPath
  | GetSettings c => discard (SettingsClient.getSettings c)
  | UpdateSettings c settings => SettingsClient.updateSettings c settings
  | UpdateProxyBaseUrl c proxyBaseUrl =>
      discard (SettingsClient.updateProxyBaseUrl c proxyBaseUrl)
  | GetContactInformation c => discard (SettingsClient.getContactInformation c)
  | UpdateContactInformation c address city country postalCode state email
      organization contactPerson phoneNumber =>
      SettingsClient.updateContactInformation c address city country postalCode
        state email organization contactPerson phoneNumber
  end.

(** The connection parameters of the client an operation runs on. *)
Definition operation_context (op : Operation) : string * string :=
  match op with
  | AboutGetVersion c | AboutExists c => (AboutClient.url c, AboutClient.auth c)
  | WorkspaceGetAll c | WorkspaceCreate c _ | WorkspaceDelete c _ _ =>
      (WorkspaceClient.url c, WorkspaceClient.auth c)
  | NamespaceGetAll c | NamespaceCreate c _ _ | NamespaceDelete c _ =>
      (NamespaceClient.url c, NamespaceClient.auth c)
  | Single l => lookup_context l
  | GetStores c _ _ | GetDataStores c _ | GetCoverageStores c _ | GetWmsStores c _
  | GetWmtsStores c _ | CreateGeotiffFromFile c _ _ _ _ _
  | CreatePostgisStore c _ _ _ _ _ _ _ _ _ _ | CreateImageMosaicStore c _ _ _
  | CreateWmsStore c _ _ _ | CreateWmtsStore c _ _ _ | CreateWfsStore c _ _ _ _ _
  | DeleteDataStore c _ _ _ | DeleteCoverageStore c _ _ _ | CreateGpkgStore c _ _ _ =>
      (DatastoreClient.url c, DatastoreClient.auth c)
  | GetSettings c | UpdateSettings c _ | UpdateProxyBaseUrl c _
  | GetContactInformation c | UpdateContactInformation c _ _ _ _ _ _ _ _ _ =>
      (SettingsClient.url c, SettingsClient.auth c)
  end.

(** The operations that may need a second exchange: a lookup asks the prober
    after a failure, and [updateProxyBaseUrl] reads the settings before it
    writes them. *)
Definition two_step (op : Operation) : bool :=
  match op with
  | Single _ | UpdateProxyBaseUrl _ _ => true
  | _ => false
  end.

(** A request that carries the credentials [auth] and goes below [url]. *)
Definition authenticated (ctx : string * string) (req : Request) : Prop :=
  Headers_get (req_headers req) "Authorization" = Some (snd ctx) /\
  exists rest, req_url req = fst ctx ++ rest.

(** [c] adds at most [n] requests to the log, each of them satisfying [P]. *)
Definition issues {T : Transport} {A : Type} (P : Request -> Prop) (n : nat)
  (c : Async A) : Prop :=
  forall st, exists reqs,
    issued (snd (c st)) = (issued st ++ reqs)%list /\
    (List.length reqs <= n)%nat /\ Forall P reqs.

(** The operations whose only treatment of a failure status is the generic
    one: read the text, throw with the default message. *)
Definition generic_on_failure (op : Operation) : bool :=
  match op with
  | AboutGetVersion _ | WorkspaceGetAll _ | NamespaceGetAll _
  | NamespaceCreate _ _ _
  | GetStores _ _ _ | GetDataStores _ _ | GetCoverageStores _ _
  | GetWmsStores _ _ | GetWmtsStores _ _
  | CreatePostgisStore _ _ _ _ _ _ _ _ _ _ _ | CreateImageMosaicStore _ _ _ _
  | CreateWmsStore _ _ _ _ | CreateWmtsStore _ _ _ _ | CreateWfsStore _ _ _ _ _ _
  | DeleteDataStore _ _ _ _ | CreateGpkgStore _ _ _ _
  | GetSettings _ | UpdateSettings _ _ | GetContactInformation _
  | UpdateContactInformation _ _ _ _ _ _ _ _ _ _ => true
  | _ => false
  end.

(** The request of [deleteCoverageStore]. *)
Definition coveragestore_delete_request (c : DatastoreClient.t)
  (workspace coverageStore recurse : string) : Request :=
  delete_request
    ((DatastoreClient.url c ++ "workspaces/" ++ workspace ++ "/coveragestores/"
      ++ coverageStore) ++ "?recurse=" ++ recurse)
    (DatastoreClient.auth c).

(** The message of [deleteCoverageStore] for status 401. *)
Definition dependants_message : string :=
  "Deletion failed. There might be dependant objects to " ++
  "this store. Delete them first or call this with "
  ++ String dquote ("recurse=false" ++ String dquote EmptyString).

(** The properties of an object literal whose values were given. *)
Fixpoint provided (fields : list (string * option string)) : list (string * JsValue) :=
  match fields with
  | [] => []
  | (k, Some s) :: rest => (k, JStr s) :: provided rest
  | (_, None) :: rest => provided rest
  end.

(** The members of an object, as [JSON.stringify] prints them. *)
Fixpoint members (first : bool) (props : list (string * JsValue)) : string :=
  match props with
  | [] => EmptyString
  | (_, JUndefined) :: rest => members first rest
  | (k, x) :: rest =>
      (if first then EmptyString else ",") ++ quote k ++ ":" ++ stringify x
      ++ members false rest
  end.

(** No character of [s] is [c]. *)
Fixpoint free_of (c : ascii) (s : string) : bool :=
  match s with
  | EmptyString => true
  | String x rest => negb (Ascii.eqb x c) && free_of c rest
  end.

(** How method, body and content type of a request go together: GET and
    DELETE carry no body, a text body is declared as JSON, a file body as a
    TIFF image or a zip archive. *)
Definition well_formed (req : Request) : Prop :=
  match req_method req with
  | GET | DELETE => req_body req = None
  | POST | PUT => True
  end /\
  match req_body req with
  | Some (BodyText _) =>
      Headers_get (req_headers req) "Content-Type" = Some "application/json"
  | Some (BodyStream _) =>
      Headers_get (req_headers req) "Content-Type" = Some "image/tiff" \/
      Headers_get (req_headers req) "Content-Type" = Some "application/zip"
  | None => True
  end.

(** What an operation settles to when the transport rejects every request
    with [e]: the probe answers [false], an upload that cannot examine its
    file fails with the error of the file system, and everything else fails
    with [e]. *)
Definition outcome_when_offline {T : Transport} (e : JsError) (op : Operation)
  (st : State) : Settled unit :=
  match op with
  | AboutExists _ => Fulfilled tt
  | CreateGeotiffFromFile _ _ _ _ _ filePath =>
      match statSync filePath (world st) with
      | Normal _ => Rejected e
      | Abrupt e' => Rejected e'
      end
  | _ => Rejected e
  end.

(** ** Further sample exchanges *)

(** A transport without a server: every request is refused and no file is
    found. *)
Definition Offline : Transport :=
  {| World := unit;
     send := fun _ w => (Rejected (FetchError "ECONNREFUSED"), w);
     statSync := fun _ _ => Abrupt (SystemError "ENOENT") |}.

(** The answer to deleting a store that others depend on. *)
Definition has_dependants : Response :=
  {| status := 401;
     text := Fulfilled "Store has dependants";
     json := undecodable |}.

(** Settings as a server sends them. *)
Definition sample_settings : JsValue :=
  JObj [("global",
     JObj [("settings", JObj [("charset", JStr "UTF-8"); ("numDecimals", JNum 8)]);
           ("jai", JObj [("allowInterpolation", JBool false)])])].

Definition sample_workspaces : WorkspaceClient.t :=
  WorkspaceClient.new sample_url sample_auth.

Definition sample_datastores : DatastoreClient.t :=
  DatastoreClient.new sample_url sample_auth.

(** * Properties *)

Section Running.
Context {T : Transport}.

Lemma fetch_run (req : Request) (st : State) :
  fetch req st = (fst (send req (world st)), sent req st).
Proof.
  unfold fetch, sent. destruct (send req (world st)); reflexivity.
Qed.

Lemma bind_run {A B : Type} (c : Async A) (k : A -> Async B) (st : State) :
  bind c k st =
  match c st with
  | (Fulfilled a, st') => k a st'
  | (Rejected e, st') => (Rejected e, st')
  end.
Proof. reflexivity. Qed.

Lemma catch_run {A : Type} (c : Async A) (h : JsError -> Async A) (st : State) :
  catch c h st =
  match c st with
  | (Fulfilled a, st') => (Fulfilled a, st')
  | (Rejected e, st') => h e st'
  end.
Proof. reflexivity. Qed.

Lemma sync_run {A : Type} (c : World -> Completion A) (st : State) :
  sync c st =
  (match c (world st) with Normal a => Fulfilled a | Abrupt e => Rejected e end, st).
Proof. unfold sync. destruct (c (world st)); reflexivity. Qed.

Lemma eval_run {A : Type} (c : Completion A) (st : State) :
  eval c st = (match c with Normal a => Fulfilled a | Abrupt e => Rejected e end, st).
Proof. unfold eval. apply sync_run. Qed.

(** The error utility hands on whatever reading the body settles to. *)
Lemma getGeoServerResponseText_run (response : Response) (st : State) :
  getGeoServerResponseText response st = (Settled_map Some (text response), st).
Proof. reflexivity. Qed.

(** Reading the text and throwing: the shape of every failure branch. *)
Lemma throw_run {A : Type} (message : option string) (response : Response)
  (st : State) :
  bind (getGeoServerResponseText response)
       (fun geoServerResponse =>
          raise (new_GeoServerResponseError message geoServerResponse)) st
  = (match text response with
     | Fulfilled t => @Rejected A (new_GeoServerResponseError message (Some t))
     | Rejected e => Rejected e
     end, st).
Proof.
  rewrite bind_run, getGeoServerResponseText_run.
  destruct (text response); reflexivity.
Qed.

Lemma throw_classified {A : Type} (message : option string) (response : Response) :
  raises_classified
    (match text response with
     | Fulfilled t => @Rejected A (new_GeoServerResponseError message (Some t))
     | Rejected e => Rejected e
     end)
    (string_or_else message default_message) response.
Proof.
  unfold raises_classified.
  destruct (text response) as [t|e].
  - eexists; split; [reflexivity|]. intros t' Ht. injection Ht as <-. reflexivity.
  - exists e; split; [reflexivity|]. intros t Ht. discriminate Ht.
Qed.

(** What [getVersion] does, by the outcome of the transport. *)
Lemma getVersion_run (this : AboutClient.t) (st : State) :
  AboutClient.getVersion this st =
  (match fst (send (version_request this) (world st)) with
   | Rejected e => Rejected e
   | Fulfilled response =>
       if ok response then json response
       else match text response with
            | Fulfilled t => Rejected (new_GeoServerResponseError None (Some t))
            | Rejected e => Rejected e
            end
   end, sent (version_request this) st).
Proof.
  unfold AboutClient.getVersion.
  change {| req_url := AboutClient.url this ++ "about/version.json";
            req_method := GET;
            req_headers := [("Authorization", AboutClient.auth this)];
            req_body := None |} with (version_request this).
  rewrite bind_run, fetch_run.
  destruct (fst (send (version_request this) (world st))) as [response|e];
    [|reflexivity].
  destruct (ok response); cbn [negb]; [reflexivity|].
  apply throw_run.
Qed.

(** The probe settles to a boolean whatever [getVersion] does. *)
Lemma exists_run (this : AboutClient.t) (st : State) :
  AboutClient.exists_ this st =
  (Fulfilled (match fst (AboutClient.getVersion this st) with
              | Fulfilled versionInfo => truthy versionInfo
              | Rejected _ => false
              end),
   snd (AboutClient.getVersion this st)).
Proof.
  unfold AboutClient.exists_. rewrite catch_run, bind_run.
  destruct (AboutClient.getVersion this st) as [[v|e] st']; reflexivity.
Qed.

End Running.

(** Closes a goal on the failure branch once the status tests are decided. *)
Ltac classified_failure :=
  cbn [fst]; simpl (_ =? _)%Z;
  first [ exact (throw_classified None _)
        | exact (throw_classified (Some _) _) ].

Section Lookups.
Context {T : Transport}.

(** Every lookup is an instance of the read pattern. *)
Lemma lookup_read_item (l : Lookup) :
  lookup l = read_item (fst (lookup_context l)) (snd (lookup_context l)) (lookup_path l).
Proof. destruct l; reflexivity. Qed.

Lemma read_item_failure (url auth path : string) (st : State) (response : Response) :
  fst (send (get_request (url ++ path) auth) (world st)) = Fulfilled response ->
  ok response = false ->
  read_item url auth path st =
  let probe := AboutClient.exists_ (AboutClient.new url auth)
                 (sent (get_request (url ++ path) auth) st) in
  (match fst probe with
   | Fulfilled true => Fulfilled JUndefined
   | Fulfilled false =>
       match text response with
       | Fulfilled t => Rejected (new_GeoServerResponseError None (Some t))
       | Rejected e => Rejected e
       end
   | Rejected e => Rejected e
   end, snd probe).
Proof.
  intros Hsend Hok. unfold read_item.
  rewrite bind_run, fetch_run, Hsend, Hok. cbn [negb].
  rewrite bind_run.
  destruct (AboutClient.exists_ _ _) as [[[|]|e] st2]; cbn [fst snd];
    try reflexivity.
  apply throw_run.
Qed.

Lemma read_item_success (url auth path : string) (st : State) (response : Response) :
  fst (send (get_request (url ++ path) auth) (world st)) = Fulfilled response ->
  ok response = true ->
  read_item url auth path st =
  (json response, sent (get_request (url ++ path) auth) st).
Proof.
  intros Hsend Hok. unfold read_item.
  rewrite bind_run, fetch_run, Hsend, Hok. reflexivity.
Qed.

(** C1: when the GET of a single-item lookup (workspace get, namespace get,
    getStore and its four wrappers) answers with a failure status, the lookup
    runs the existence prober next; if the prober reports the server reachable
    the lookup returns [undefined] and raises nothing, and if it reports the
    server unreachable the lookup raises the classified communication failure
    that carries the text of the original response. *)
Theorem lookup_failure_probes (l : Lookup) (st : State) (response : Response) :
  fst (send (lookup_request l) (world st)) = Fulfilled response ->
  ok response = false ->
  let probe := AboutClient.exists_ (lookup_prober l) (sent (lookup_request l) st) in
  exists reachable : bool,
    fst probe = Fulfilled reachable /\
    snd (lookup l st) = snd probe /\
    issued (snd (lookup l st)) =
      (issued st ++ [lookup_request l; version_request (lookup_prober l)])%list /\
    if reachable
    then fst (lookup l st) = Fulfilled JUndefined
    else raises_classified (fst (lookup l st)) default_message response.
Proof.
  intros Hsend Hok probe.
  rewrite lookup_read_item.
  unfold lookup_request in Hsend.
  rewrite (read_item_failure _ _ _ _ _ Hsend Hok).
  fold (lookup_request l). fold (lookup_prober l). fold probe.
  cbv zeta. cbn [fst snd].
  unfold probe. rewrite exists_run. cbn [fst snd].
  eexists. split; [reflexivity|]. split; [reflexivity|]. split.
  - rewrite getVersion_run. cbn [snd]. unfold sent. cbn [issued].
    rewrite <- app_assoc. reflexivity.
  - match goal with |- if ?b then _ else _ => destruct b end.
    + reflexivity.
    + apply (throw_classified None).
Qed.

End Lookups.

Section About.
Context {T : Transport}.

(** C4: [exists] never raises, whatever the transport does: it settles to
    [true] exactly when the version request succeeds and decodes to a truthy
    payload, and to [false] on a network error, on a failure status and on a
    payload that cannot be decoded; [getVersion], on the same request, raises
    on a failure status (the classified failure carrying the response
    text) instead of swallowing it. *)
Theorem exists_never_raises (this : AboutClient.t) (st : State) :
  let req := version_request this in
  let reply := fst (send req (world st)) in
  (exists reachable : bool,
     AboutClient.exists_ this st = (Fulfilled reachable, sent req st) /\
     (reachable = true <->
      exists response versionInfo,
        reply = Fulfilled response /\ ok response = true /\
        json response = Fulfilled versionInfo /\ truthy versionInfo = true)) /\
  (forall e, reply = Rejected e ->
     fst (AboutClient.exists_ this st) = Fulfilled false) /\
  (forall response, reply = Fulfilled response -> ok response = false ->
     fst (AboutClient.exists_ this st) = Fulfilled false /\
     raises_classified (fst (AboutClient.getVersion this st)) default_message
       response) /\
  (forall response e, reply = Fulfilled response -> ok response = true ->
     json response = Rejected e ->
     fst (AboutClient.exists_ this st) = Fulfilled false).
Proof.
  intros req reply.
  rewrite exists_run, getVersion_run. fold req. fold reply. cbn [fst snd].
  split; [|split; [|split]].
  - eexists. split; [reflexivity|].
    destruct reply as [response|e].
    + destruct (ok response) eqn:Hok.
      * destruct (json response) as [v|e] eqn:Hjson.
        -- split.
           ++ intros Hv. exists response, v. repeat split; assumption.
           ++ intros (r & v' & Hr & _ & Hj & Hv).
              injection Hr as <-. rewrite Hjson in Hj. injection Hj as <-.
              exact Hv.
        -- split; [discriminate|].
           intros (r & v' & Hr & _ & Hj & _).
           injection Hr as <-. rewrite Hjson in Hj. discriminate Hj.
      * split.
        -- destruct (text response); discriminate.
        -- intros (r & v' & Hr & Hok' & _).
           injection Hr as <-. rewrite Hok in Hok'. discriminate Hok'.
    + split; [discriminate|].
      intros (r & v' & Hr & _). discriminate Hr.
  - intros e ->. reflexivity.
  - intros response -> ->. split.
    + destruct (text response); reflexivity.
    + exact (throw_classified None response).
  - intros response e -> -> ->. reflexivity.
Qed.

End About.

Section Deletes.
Context {T : Transport}.

Lemma workspace_delete_run (c : WorkspaceClient.t) (name : string) (recurse : bool)
  (st : State) (response : Response) :
  fst (send (workspace_delete_request c name recurse) (world st)) = Fulfilled response ->
  ok response = false ->
  WorkspaceClient.delete c name recurse st =
  (match text response with
   | Fulfilled t =>
       Rejected (new_GeoServerResponseError
         (if (status response =? 400)%Z
          then Some "Workspace or related Namespace is not empty (and recurse not true)"
          else if (status response =? 404)%Z then Some "Workspace doesn't exist"
          else None) (Some t))
   | Rejected e => Rejected e
   end, sent (workspace_delete_request c name recurse) st).
Proof.
  intros Hsend Hok. unfold WorkspaceClient.delete.
  rewrite bind_run.
  change (fetch _) with (fetch (workspace_delete_request c name recurse)).
  rewrite fetch_run, Hsend, Hok. cbn [negb].
  rewrite bind_run, getGeoServerResponseText_run.
  destruct (text response) as [t|e]; cbn [Settled_map]; [|reflexivity].
  destruct (status response =? 400)%Z; [reflexivity|].
  destruct (status response =? 404)%Z; reflexivity.
Qed.

Lemma namespace_delete_run (c : NamespaceClient.t) (name : string)
  (st : State) (response : Response) :
  fst (send (namespace_delete_request c name) (world st)) = Fulfilled response ->
  ok response = false ->
  NamespaceClient.delete c name st =
  (match text response with
   | Fulfilled t =>
       Rejected (new_GeoServerResponseError
         (if (status response =? 403)%Z
          then Some "Namespace or related Workspace is not empty (and recurse not true)"
          else if (status response =? 404)%Z then Some "Namespace doesn't exist"
          else if (status response =? 405)%Z then Some "Can't delete default namespace"
          else Some "Response not recognized") (Some t))
   | Rejected e => Rejected e
   end, sent (namespace_delete_request c name) st).
Proof.
  intros Hsend Hok. unfold NamespaceClient.delete.
  rewrite bind_run.
  change (fetch _) with (fetch (namespace_delete_request c name)).
  rewrite fetch_run, Hsend, Hok. cbn [negb].
  rewrite bind_run, getGeoServerResponseText_run.
  destruct (text response) as [t|e]; cbn [Settled_map]; [|reflexivity].
  destruct (status response =? 403)%Z; [reflexivity|].
  destruct (status response =? 404)%Z; [reflexivity|].
  destruct (status response =? 405)%Z; reflexivity.
Qed.

(** A status in one of the tables is a failure status. *)
Lemma failure_status (response : Response) (code : Z) :
  status response = code -> (code <? 200)%Z || (300 <=? code)%Z = true ->
  ok response = false.
Proof.
  intros <- H. unfold ok.
  destruct (200 <=? status response)%Z eqn:H1;
    destruct (status response <? 300)%Z eqn:H2; try reflexivity.
  apply orb_true_iff in H as [H|H]; lia.
Qed.

(** C3: a delete that receives a failure status raises the failure its
    family's table gives for that status.  Workspace delete: 400 is "not
    empty", 404 is "doesn't exist"; namespace delete: 403 is "not empty", 404
    is "doesn't exist", 405 is "can't delete default"; any other failure
    status gives a generic classified failure.  Each failure carries the text
    of the server response. *)
Theorem delete_failure_classified :
  (forall (c : WorkspaceClient.t) (name : string) (recurse : bool) (st : State)
          (response : Response),
     fst (send (workspace_delete_request c name recurse) (world st))
       = Fulfilled response ->
     let outcome := fst (WorkspaceClient.delete c name recurse st) in
     (status response = 400%Z ->
      raises_classified outcome
        "Workspace or related Namespace is not empty (and recurse not true)" response) /\
     (status response = 404%Z ->
      raises_classified outcome "Workspace doesn't exist" response) /\
     (ok response = false -> status response <> 400%Z -> status response <> 404%Z ->
      raises_classified outcome default_message response)) /\
  (forall (c : NamespaceClient.t) (name : string) (st : State) (response : Response),
     fst (send (namespace_delete_request c name) (world st)) = Fulfilled response ->
     let outcome := fst (NamespaceClient.delete c name st) in
     (status response = 403%Z ->
      raises_classified outcome
        "Namespace or related Workspace is not empty (and recurse not true)" response) /\
     (status response = 404%Z ->
      raises_classified outcome "Namespace doesn't exist" response) /\
     (status response = 405%Z ->
      raises_classified outcome "Can't delete default namespace" response) /\
     (ok response = false -> status response <> 403%Z -> status response <> 404%Z ->
      status response <> 405%Z ->
      raises_classified outcome "Response not recognized" response)).
Proof.
  split.
  - intros c name recurse st response Hsend outcome. unfold outcome.
    repeat split.
    + intros Hs.
      rewrite (workspace_delete_run _ _ _ _ _ Hsend (failure_status _ _ Hs eq_refl)).
      rewrite Hs. classified_failure.
    + intros Hs.
      rewrite (workspace_delete_run _ _ _ _ _ Hsend (failure_status _ _ Hs eq_refl)).
      rewrite Hs. classified_failure.
    + intros Hok H400 H404.
      rewrite (workspace_delete_run _ _ _ _ _ Hsend Hok).
      apply Z.eqb_neq in H400, H404. rewrite H400, H404.
      classified_failure.
  - intros c name st response Hsend outcome. unfold outcome.
    repeat split.
    + intros Hs.
      rewrite (namespace_delete_run _ _ _ _ Hsend (failure_status _ _ Hs eq_refl)).
      rewrite Hs. classified_failure.
    + intros Hs.
      rewrite (namespace_delete_run _ _ _ _ Hsend (failure_status _ _ Hs eq_refl)).
      rewrite Hs. classified_failure.
    + intros Hs.
      rewrite (namespace_delete_run _ _ _ _ Hsend (failure_status _ _ Hs eq_refl)).
      rewrite Hs. classified_failure.
    + intros Hok H403 H404 H405.
      rewrite (namespace_delete_run _ _ _ _ Hsend Hok).
      apply Z.eqb_neq in H403, H404, H405. rewrite H403, H404, H405.
      classified_failure.
Qed.

End Deletes.

Section Creates.
Context {T : Transport}.

Lemma workspace_create_run (c : WorkspaceClient.t) (name : string) (st : State)
  (response : Response) :
  fst (send (workspace_create_request c name) (world st)) = Fulfilled response ->
  WorkspaceClient.create c name st =
  (if ok response then text response
   else match text response with
        | Fulfilled t =>
            Rejected (new_GeoServerResponseError
              (if (status response =? 409)%Z
               then Some "Unable to add workspace as it already exists"
               else None) (Some t))
        | Rejected e => Rejected e
        end, sent (workspace_create_request c name) st).
Proof.
  intros Hsend. unfold WorkspaceClient.create.
  rewrite bind_run.
  change (fetch _) with (fetch (workspace_create_request c name)).
  rewrite fetch_run, Hsend.
  destruct (ok response); cbn [negb]; [reflexivity|].
  rewrite bind_run, getGeoServerResponseText_run.
  destruct (text response) as [t|e]; cbn [Settled_map]; [|reflexivity].
  destruct (status response =? 409)%Z; reflexivity.
Qed.

Lemma namespace_create_run (c : NamespaceClient.t) (prefix uri : string) (st : State)
  (response : Response) :
  fst (send (namespace_create_request c prefix uri) (world st)) = Fulfilled response ->
  NamespaceClient.create c prefix uri st =
  (if ok response then text response
   else match text response with
        | Fulfilled t => Rejected (new_GeoServerResponseError None (Some t))
        | Rejected e => Rejected e
        end, sent (namespace_create_request c prefix uri) st).
Proof.
  intros Hsend. unfold NamespaceClient.create.
  rewrite bind_run.
  change (fetch _) with (fetch (namespace_create_request c prefix uri)).
  rewrite fetch_run, Hsend.
  destruct (ok response); cbn [negb]; [reflexivity|].
  apply throw_run.
Qed.

(** C2, as the code has it: [WorkspaceClient.create] turns a 409 into the
    "already exists" failure with its own message and every other failure
    status into the generic classified failure; [NamespaceClient.create] has
    no case for 409 and turns every failure status, 409 included, into the
    generic classified failure.  Each failure carries the text of the server
    response, and on success both return what reading the response text
    gives. *)
Theorem create_failure_classified :
  (forall (c : WorkspaceClient.t) (name : string) (st : State) (response : Response),
     fst (send (workspace_create_request c name) (world st)) = Fulfilled response ->
     let outcome := fst (WorkspaceClient.create c name st) in
     (status response = 409%Z ->
      raises_classified outcome "Unable to add workspace as it already exists"
        response) /\
     (ok response = false -> status response <> 409%Z ->
      raises_classified outcome default_message response) /\
     (ok response = true -> outcome = text response)) /\
  (forall (c : NamespaceClient.t) (prefix uri : string) (st : State)
          (response : Response),
     fst (send (namespace_create_request c prefix uri) (world st))
       = Fulfilled response ->
     let outcome := fst (NamespaceClient.create c prefix uri st) in
     (ok response = false ->
      raises_classified outcome default_message response) /\
     (ok response = true -> outcome = text response)).
Proof.
  split.
  - intros c name st response Hsend outcome. unfold outcome.
    rewrite (workspace_create_run _ _ _ _ Hsend).
    repeat split.
    + intros Hs. rewrite (failure_status _ _ Hs eq_refl), Hs. classified_failure.
    + intros Hok H409. apply Z.eqb_neq in H409. rewrite Hok, H409.
      classified_failure.
    + intros ->. reflexivity.
  - intros c prefix uri st response Hsend outcome. unfold outcome.
    rewrite (namespace_create_run _ _ _ _ _ Hsend).
    split.
    + intros ->. classified_failure.
    + intros ->. reflexivity.
Qed.

End Creates.

(** ** The facade *)

Lemma endsWith_refl (s : string) : endsWith s s = true.
Proof. destruct s; cbn [endsWith]; rewrite String.eqb_refl; reflexivity. Qed.

Lemma endsWith_app (p s : string) : endsWith (p ++ s) s = true.
Proof.
  induction p as [|a p IH].
  - apply endsWith_refl.
  - cbn [append endsWith]. rewrite IH. apply orb_true_r.
Qed.

(** [endsWith] is the suffix relation. *)
Lemma endsWith_spec (s suffix : string) :
  endsWith s suffix = true <-> exists p, s = p ++ suffix.
Proof.
  split.
  - induction s as [|a s IH]; cbn [endsWith]; intros H.
    + rewrite orb_false_r in H. apply String.eqb_eq in H. exists EmptyString.
      exact H.
    + apply orb_true_iff in H as [H|H].
      * apply String.eqb_eq in H. exists EmptyString. exact H.
      * destruct (IH H) as [p ->]. exists (String a p). reflexivity.
  - intros [p ->]. apply endsWith_app.
Qed.

(** Base64 output comes in groups of four digits, one per three bytes. *)
Lemma base64_length (s : string) :
  String.length (base64 s) = 4 * ((String.length s + 2) / 3).
Proof.
  revert s. fix IH 1. intros s.
  destruct s as [|a [|b [|c rest]]]; try reflexivity.
  cbn [base64 String.length]. rewrite (IH rest).
  replace (S (S (S (String.length rest))) + 2)
    with (String.length rest + 2 + 1 * 3) by lia.
  rewrite Nat.div_add by discriminate. lia.
Qed.

Section Facade.
Context {T : Transport}.

(** C5: for every url, user and password the constructor yields a context
    whose base URL ends with the separator (the input itself when it already
    ends with one, the input followed by one otherwise) and whose token is
    [Basic] followed by the base64 form of [user:password]; each of the ten
    resource clients is handed exactly this pair; and constructing, as a step
    of a program, completes normally without issuing a request. *)
Theorem facade_shares_context (url user password : string) (st : State) :
  let c := GeoServerRestClient.new url user password in
  endsWith (GeoServerRestClient.url c) "/" = true /\
  (endsWith url "/" = true -> GeoServerRestClient.url c = url) /\
  (endsWith url "/" = false -> GeoServerRestClient.url c = url ++ "/") /\
  GeoServerRestClient.auth c = "Basic " ++ base64 (user ++ ":" ++ password) /\
  List.length (GeoServerRestClient.contexts c) = 10 /\
  (forall ctx, In ctx (GeoServerRestClient.contexts c) ->
     ctx = (GeoServerRestClient.url c, GeoServerRestClient.auth c)) /\
  construct url user password st = (Fulfilled c, st).
Proof.
  intros c. unfold c, GeoServerRestClient.new.
  cbn [GeoServerRestClient.url GeoServerRestClient.auth].
  repeat split.
  - destruct (endsWith url "/") eqn:E; [exact E | apply endsWith_app].
  - intros ->. reflexivity.
  - intros ->. reflexivity.
  - intros ctx Hin. cbn in Hin.
    repeat (destruct Hin as [<-|Hin]; [reflexivity|]).
    destruct Hin.
Qed.

End Facade.

(** ** The data store client *)

Section Datastores.
Context {T : Transport}.

(** Any step that starts with a [fetch] records that request first. *)
Lemma fetch_first_issued {A : Type} (req : Request) (k : Response -> Async A)
  (st : State) :
  (forall response st', issued (snd (k response st')) = issued st') ->
  issued (snd (bind (fetch req) k st)) = (issued st ++ [req])%list.
Proof.
  intros Hk. rewrite bind_run, fetch_run.
  destruct (fst (send req (world st))) as [response|e].
  - rewrite Hk. reflexivity.
  - reflexivity.
Qed.

(** Handling a response issues nothing further. *)
Lemma throw_or_return_quiet {A : Type} (message : option string) (result : Async A)
  (response : Response) (st : State) :
  (forall st', issued (snd (result st')) = issued st') ->
  issued (snd ((if negb (ok response)
                then geoServerResponse <- getGeoServerResponseText response ;;
                     raise (new_GeoServerResponseError message geoServerResponse)
                else result) st)) = issued st.
Proof.
  intros Hres. destruct (ok response); cbn [negb].
  - apply Hres.
  - rewrite throw_run. reflexivity.
Qed.

(** C6: when [exposePk] is left out or false, [createPostgisStore] issues one
    request whose body is the serialisation of a document with a [dataStore]
    object of type [PostGIS] and a [connectionParameters] entry list of
    exactly nine entries, keyed dbtype, schema, database, host, port, passwd,
    namespace, user and Expose primary keys, the last with value [false]. *)
Theorem postgis_body_has_nine_entries (this : DatastoreClient.t)
  (workspace namespaceUri dataStore pgHost : string) (pgPort : Z)
  (pgUser pgPassword pgSchema pgDb : string) (exposePk : option bool) (st : State) :
  exposePk = None \/ exposePk = Some false ->
  exists (req : Request) (body : JsValue) (entries : list JsValue),
    issued (snd (DatastoreClient.createPostgisStore this workspace namespaceUri
                   dataStore pgHost pgPort pgUser pgPassword pgSchema pgDb
                   exposePk st)) = (issued st ++ [req])%list /\
    req_method req = POST /\
    req_body req = Some (BodyText (stringify body)) /\
    at_path body ["dataStore"; "type"] = Some (JStr "PostGIS") /\
    at_path body ["dataStore"; "connectionParameters"; "entry"] = Some (JArr entries) /\
    List.length entries = 9 /\
    map entry_key entries =
      map Some ["dbtype"; "schema"; "database"; "host"; "port"; "passwd";
                "namespace"; "user"; "Expose primary keys"] /\
    option_map entry_value (nth_error entries 8) = Some (Some (JBool false)).
Proof.
  intros HexposePk.
  eexists. exists (DatastoreClient.postgisStoreBody workspace namespaceUri dataStore
                     pgHost pgPort pgUser pgPassword pgSchema pgDb exposePk).
  eexists. split.
  - unfold DatastoreClient.createPostgisStore.
    apply fetch_first_issued. intros response st'.
    apply (throw_or_return_quiet None). reflexivity.
  - cbn [req_method req_body].
    split; [reflexivity|]. split; [reflexivity|]. split; [reflexivity|].
    split; [reflexivity|]. split; [reflexivity|]. split; [reflexivity|].
    destruct HexposePk as [-> | ->]; reflexivity.
Qed.

Lemma newly_issued_app {A : Type} (op : Async A) (st : State) (reqs : list Request) :
  issued (snd (op st)) = (issued st ++ reqs)%list -> newly_issued op st = reqs.
Proof.
  intros H. unfold newly_issued. rewrite H, skipn_app, skipn_all, Nat.sub_diag.
  reflexivity.
Qed.

(** Printing a size and reading it back gives the size. *)
Lemma parse_decimal_toString (n : N) :
  parse_decimal (Number_toString (Z.of_N n)) = Some n.
Proof.
  unfold parse_decimal, Number_toString.
  destruct n as [|p]; [reflexivity|].
  cbn [Z.of_N Z.to_int NilEmpty.string_of_int].
  rewrite NilEmpty.usu. cbn [option_map].
  f_equal. exact (DecimalN.Unsigned.of_to (Npos p)).
Qed.

(** What the upload does, by the answer of the file system. *)
Lemma createGeotiffFromFile_issued (this : DatastoreClient.t)
  (workspace coverageStore layerName : string) (layerTitle : option string)
  (filePath : string) (st : State) :
  let op := DatastoreClient.createGeotiffFromFile this workspace coverageStore
              layerName layerTitle filePath in
  match statSync filePath (world st) with
  | Normal stats =>
      newly_issued op st =
      [ {| req_url := (DatastoreClient.url this ++ geotiff_path workspace coverageStore)
                      ++ "?filename=" ++ string_or_else layerTitle layerName
                      ++ "&coverageName=" ++ layerName;
           req_method := PUT;
           req_headers :=
             [("Authorization", DatastoreClient.auth this);
              ("Content-Type", "image/tiff");
              ("Content-length", Number_toString (Z.of_N (size stats)))];
           req_body := Some (BodyStream filePath) |} ]
  | Abrupt e => op st = (Rejected e, st)
  end.
Proof.
  intros op. unfold op, DatastoreClient.createGeotiffFromFile.
  destruct (statSync filePath (world st)) as [stats|e] eqn:E.
  - apply newly_issued_app.
    rewrite bind_run, sync_run, E.
    apply fetch_first_issued. intros response st'.
    apply (throw_or_return_quiet None). reflexivity.
  - rewrite bind_run, sync_run, E. reflexivity.
Qed.

(** C7: every [createGeotiffFromFile] that gets the size of its file issues
    one PUT to the [file.geotiff] path of the store, with Content-Type
    [image/tiff], with a Content-Length that is the decimal numeral of the size
    the file system reported, with the file as body, and with the query
    parameters [filename] and [coverageName]; when the file cannot be examined
    nothing is sent. *)
Theorem geotiff_upload_request (this : DatastoreClient.t)
  (workspace coverageStore layerName : string) (layerTitle : option string)
  (filePath : string) (st : State) :
  let op := DatastoreClient.createGeotiffFromFile this workspace coverageStore
              layerName layerTitle filePath in
  match statSync filePath (world st) with
  | Normal stats =>
      exists (req : Request) (contentLength : string),
        newly_issued op st = [req] /\
        req_method req = PUT /\
        req_url req =
          (DatastoreClient.url this ++ geotiff_path workspace coverageStore)
          ++ "?filename=" ++ string_or_else layerTitle layerName
          ++ "&coverageName=" ++ layerName /\
        Headers_get (req_headers req) "Content-Type" = Some "image/tiff" /\
        Headers_get (req_headers req) "Content-Length" = Some contentLength /\
        contentLength = Number_toString (Z.of_N (size stats)) /\
        parse_decimal contentLength = Some (size stats) /\
        req_body req = Some (BodyStream filePath)
  | Abrupt e => op st = (Rejected e, st) /\ newly_issued op st = []
  end.
Proof.
  intros op.
  pose proof (createGeotiffFromFile_issued this workspace coverageStore layerName
                layerTitle filePath st) as H.
  cbv zeta in H. fold op in H.
  destruct (statSync filePath (world st)) as [stats|e].
  - eexists. eexists. split; [exact H|].
    cbn [req_method req_url req_headers req_body].
    split; [reflexivity|]. split; [reflexivity|]. split; [reflexivity|].
    split; [reflexivity|]. split; [reflexivity|].
    split; [apply parse_decimal_toString | reflexivity].
  - split; [exact H|].
    unfold newly_issued. rewrite H. cbn [snd]. apply skipn_all.
Qed.

(** C10: with [layerTitle] left out or empty the [filename] parameter is
    [layerName], with any other [layerTitle] it is that title; the
    [coverageName] parameter is [layerName] in both cases; and the request
    sent on the fallback is the very request sent when [layerName] is given as
    the title, so that method, path, headers and body do not depend on it. *)
Theorem geotiff_filename_fallback (this : DatastoreClient.t)
  (workspace coverageStore layerName : string) (layerTitle : option string)
  (filePath : string) (st : State) (stats : Stats) :
  statSync filePath (world st) = Normal stats ->
  let op := DatastoreClient.createGeotiffFromFile this workspace coverageStore
              layerName in
  exists (req : Request) (filename : string),
    newly_issued (op layerTitle filePath) st = [req] /\
    req_url req =
      (DatastoreClient.url this ++ geotiff_path workspace coverageStore)
      ++ "?filename=" ++ filename ++ "&coverageName=" ++ layerName /\
    (layerTitle = None \/ layerTitle = Some EmptyString -> filename = layerName) /\
    (forall title, layerTitle = Some title -> title <> EmptyString ->
       filename = title) /\
    (layerTitle = None \/ layerTitle = Some EmptyString ->
     newly_issued (op (Some layerName) filePath) st = [req]) /\
    (forall (other : option string) (req' : Request),
       newly_issued (op other filePath) st = [req'] ->
       req_method req' = req_method req /\
       req_headers req' = req_headers req /\
       req_body req' = req_body req /\
       Headers_get (req_headers req') "Content-Type" = Some "image/tiff").
Proof.
  intros Hstat op.
  assert (Hreq : forall title,
    newly_issued (op title filePath) st =
    [ {| req_url := (DatastoreClient.url this ++ geotiff_path workspace coverageStore)
                    ++ "?filename=" ++ string_or_else title layerName
                    ++ "&coverageName=" ++ layerName;
         req_method := PUT;
         req_headers :=
           [("Authorization", DatastoreClient.auth this);
            ("Content-Type", "image/tiff");
            ("Content-length", Number_toString (Z.of_N (size stats)))];
         req_body := Some (BodyStream filePath) |} ]).
  { intros title.
    pose proof (createGeotiffFromFile_issued this workspace coverageStore layerName
                  title filePath st) as H.
    cbv zeta in H. rewrite Hstat in H. exact H. }
  eexists. exists (string_or_else layerTitle layerName).
  split; [apply Hreq|]. cbn [req_url req_method req_headers req_body].
  split; [reflexivity|]. split; [|split; [|split]].
  - intros [-> | ->]; reflexivity.
  - intros title -> Hne. cbn [string_or_else].
    destruct (title =? EmptyString) eqn:E; [|reflexivity].
    apply String.eqb_eq in E. contradiction.
  - intros Hfalsy. rewrite Hreq. cbn [string_or_else].
    assert (Hsame : (if layerName =? EmptyString then layerName else layerName)
                    = string_or_else layerTitle layerName).
    { destruct Hfalsy as [-> | ->]; destruct (layerName =? EmptyString);
        reflexivity. }
    rewrite Hsame. reflexivity.
  - intros other req' H'. rewrite Hreq in H'. injection H' as <-.
    cbn [req_method req_headers req_body]. repeat split; reflexivity.
Qed.

End Datastores.

(** ** The error utility *)

Section ErrorUtility.
Context {T : Transport}.

(** C8: [getGeoServerResponseText] does not swallow a failed body read.  When
    reading the text is rejected with [e], the function is rejected with [e]
    too, where the function that awaits inside its [try] block would return
    nothing; so every failure branch that reads the text before throwing is
    rejected with [e] itself, and with it [getVersion], which then fails with
    an error that is not a classified one whenever [e] is not. *)
Theorem response_text_rejection_propagates (response : Response) (e : JsError)
  (st : State) :
  text response = Rejected e ->
  getGeoServerResponseText response st = (Rejected e, st) /\
  getGeoServerResponseText_awaited response st = (Fulfilled None, st) /\
  (forall (A : Type) (message : option string),
     bind (getGeoServerResponseText response)
          (fun geoServerResponse =>
             raise (new_GeoServerResponseError message geoServerResponse)) st
     = (@Rejected A e, st)) /\
  (forall this : AboutClient.t,
     fst (send (version_request this) (world st)) = Fulfilled response ->
     ok response = false ->
     fst (AboutClient.getVersion this st) = Rejected e /\
     (classified e = false ->
      forall message output,
        fst (AboutClient.getVersion this st)
        <> Rejected (GeoServerResponseError message output))).
Proof.
  intros Htext. split; [|split; [|split]].
  - rewrite getGeoServerResponseText_run, Htext. reflexivity.
  - unfold getGeoServerResponseText_awaited.
    rewrite catch_run, bind_run. unfold await. rewrite Htext. reflexivity.
  - intros A message. rewrite throw_run, Htext. reflexivity.
  - intros this Hsend Hok. rewrite getVersion_run, Hsend, Hok, Htext.
    cbn [fst]. split; [reflexivity|].
    intros Hc message output Heq. injection Heq as ->. discriminate Hc.
Qed.

End ErrorUtility.

(** ** The settings client *)

Section Settings.
Context {T : Transport}.

(** The guard as a function of the document: it looks at [global] only. *)
Lemma settings_guard_run (settingsJson : JsValue) (st : State) :
  SettingsClient.settings_guard settingsJson st =
  (match get_prop settingsJson "global" with
   | Abrupt e => Rejected e
   | Normal global =>
       if truthy global then Fulfilled false
       else match get_prop global "settings" with
            | Abrupt e => Rejected e
            | Normal settings => Fulfilled (negb (truthy settings))
            end
   end, st).
Proof.
  unfold SettingsClient.settings_guard.
  rewrite bind_run, eval_run.
  destruct (get_prop settingsJson "global") as [global|e]; [|reflexivity].
  destruct (truthy global); cbn [negb]; [reflexivity|].
  rewrite bind_run, eval_run, bind_run, eval_run.
  destruct (get_prop global "settings"); reflexivity.
Qed.

Lemma assign_proxyBaseUrl_run (settingsJson : JsValue) (proxyBaseUrl : string)
  (st : State) :
  SettingsClient.assign_proxyBaseUrl settingsJson proxyBaseUrl st =
  (match get_prop settingsJson "global" with
   | Abrupt e => Rejected e
   | Normal global =>
       match get_prop global "settings" with
       | Abrupt e => Rejected e
       | Normal settings =>
           match set_prop settings "proxyBaseUrl" (JStr proxyBaseUrl) with
           | Abrupt e => Rejected e
           | Normal settings' =>
               Fulfilled (with_prop settingsJson "global"
                            (with_prop global "settings" settings'))
           end
       end
   end, st).
Proof.
  unfold SettingsClient.assign_proxyBaseUrl.
  rewrite bind_run, eval_run.
  destruct (get_prop settingsJson "global") as [global|e]; [|reflexivity].
  rewrite bind_run, eval_run.
  destruct (get_prop global "settings") as [settings|e]; [|reflexivity].
  rewrite bind_run, eval_run.
  destruct (set_prop settings "proxyBaseUrl" (JStr proxyBaseUrl)); reflexivity.
Qed.

(** The whole operation once the settings were fetched. *)
Lemma updateProxyBaseUrl_run (this : SettingsClient.t) (proxyBaseUrl : string)
  (st st1 : State) (settingsJson : JsValue) :
  SettingsClient.getSettings this st = (Fulfilled settingsJson, st1) ->
  SettingsClient.updateProxyBaseUrl this proxyBaseUrl st =
  match fst (SettingsClient.settings_guard settingsJson st1) with
  | Rejected e => (Rejected e, st1)
  | Fulfilled true => (Fulfilled (JBool false), st1)
  | Fulfilled false =>
      match fst (SettingsClient.assign_proxyBaseUrl settingsJson proxyBaseUrl st1) with
      | Rejected e => (Rejected e, st1)
      | Fulfilled settingsJson' =>
          (match fst (SettingsClient.updateSettings this settingsJson' st1) with
           | Fulfilled _ => Fulfilled JUndefined
           | Rejected e => Rejected e
           end, snd (SettingsClient.updateSettings this settingsJson' st1))
      end
  end.
Proof.
  intros Hget. unfold SettingsClient.updateProxyBaseUrl.
  rewrite bind_run, Hget, bind_run, settings_guard_run. cbn [fst].
  destruct (get_prop settingsJson "global") as [global|e] eqn:Hg; [|reflexivity].
  assert (Hpass :
    (settingsJson0 <- SettingsClient.assign_proxyBaseUrl settingsJson proxyBaseUrl ;;
     SettingsClient.updateSettings this settingsJson0 ;; ret JUndefined) st1 =
    match fst (SettingsClient.assign_proxyBaseUrl settingsJson proxyBaseUrl st1) with
    | Rejected e => (Rejected e, st1)
    | Fulfilled settingsJson' =>
        (match fst (SettingsClient.updateSettings this settingsJson' st1) with
         | Fulfilled _ => Fulfilled JUndefined
         | Rejected e => Rejected e
         end, snd (SettingsClient.updateSettings this settingsJson' st1))
    end).
  { rewrite bind_run, assign_proxyBaseUrl_run. cbn [fst].
    destruct (match get_prop settingsJson "global" with
              | Normal _ => _ | Abrupt e => _ end) as [sj'|e]; [|reflexivity].
    rewrite bind_run.
    destruct (SettingsClient.updateSettings this sj' st1) as [[u|e] st2];
      reflexivity. }
  destruct (truthy global); [exact Hpass|].
  destruct (get_prop global "settings") as [settings|e]; [|reflexivity].
  destruct (truthy settings); cbn [negb]; [exact Hpass | reflexivity].
Qed.

(** When the guard answers [true], and only then, [global] is one of the
    falsy values on which a property can be read. *)
Lemma settings_guard_true (settingsJson : JsValue) (st : State) :
  fst (SettingsClient.settings_guard settingsJson st) = Fulfilled true <->
  exists global, get_prop settingsJson "global" = Normal global /\
    (global = JBool false \/ global = JNum 0 \/ global = JStr EmptyString).
Proof.
  rewrite settings_guard_run. cbn [fst]. split.
  - destruct (get_prop settingsJson "global") as [global|e]; [|discriminate].
    intros H. exists global. split; [reflexivity|].
    destruct global as [| |b|n|s|elems|props]; cbn [truthy get_prop] in H;
      try discriminate.
    + destruct b; [discriminate|]. left. reflexivity.
    + destruct (n =? 0)%Z eqn:E; [|discriminate].
      apply Z.eqb_eq in E. subst n. right. left. reflexivity.
    + destruct (s =? EmptyString) eqn:E; [|discriminate].
      apply String.eqb_eq in E. subst s. right. right. reflexivity.
  - intros (global & -> & [-> | [-> | ->]]); reflexivity.
Qed.

(** C9, as the code has it: the guard of [updateProxyBaseUrl] does not
    return [false] on settings without a [global] or without a
    [global.settings] object.  Without [global] the guard itself throws a
    TypeError; with a truthy [global] that has no [settings] the guard passes
    and the assignment throws a TypeError; in both cases nothing is sent.
    The operation returns [false] exactly when [global] is [false], [0] or the
    empty string. *)
Theorem proxy_guard_on_malformed_settings (this : SettingsClient.t)
  (proxyBaseUrl : string) (st st1 : State) (settingsJson : JsValue) :
  SettingsClient.getSettings this st = (Fulfilled settingsJson, st1) ->
  let outcome := SettingsClient.updateProxyBaseUrl this proxyBaseUrl st in
  let guard := fst (SettingsClient.settings_guard settingsJson st1) in
  (get_prop settingsJson "global" = Normal JUndefined ->
   exists message,
     guard = Rejected (TypeError message) /\
     outcome = (Rejected (TypeError message), st1)) /\
  (forall global,
     get_prop settingsJson "global" = Normal global ->
     truthy global = true ->
     get_prop global "settings" = Normal JUndefined ->
     guard = Fulfilled false /\
     exists message,
       fst (SettingsClient.assign_proxyBaseUrl settingsJson proxyBaseUrl st1)
         = Rejected (TypeError message) /\
       outcome = (Rejected (TypeError message), st1)) /\
  (fst outcome = Fulfilled (JBool false) <->
   exists global, get_prop settingsJson "global" = Normal global /\
     (global = JBool false \/ global = JNum 0 \/ global = JStr EmptyString)).
Proof.
  intros Hget outcome guard. unfold outcome.
  rewrite (updateProxyBaseUrl_run _ _ _ _ _ Hget). fold guard.
  split; [|split].
  - intros Hg. unfold guard. rewrite settings_guard_run, Hg. cbn [fst].
    eexists. split; reflexivity.
  - intros global Hg Htruthy Hs. unfold guard.
    rewrite settings_guard_run, Hg, Htruthy. cbn [fst].
    rewrite assign_proxyBaseUrl_run, Hg, Hs. cbn [fst set_prop].
    split; [reflexivity|]. eexists. split; reflexivity.
  - rewrite <- (settings_guard_true settingsJson st1). fold guard.
    destruct guard as [[|]|e]; cbn [fst].
    + split; reflexivity.
    + split; [|discriminate].
      destruct (fst (SettingsClient.assign_proxyBaseUrl _ _ _)) as [sj'|e];
        cbn [fst]; [|discriminate].
      destruct (fst (SettingsClient.updateSettings this sj' st1)); discriminate.
    + split; discriminate.
Qed.

End Settings.

(** * The properties on sample exchanges *)

Example base64_admin : base64 "admin:geoserver" = "YWRtaW46Z2Vvc2VydmVy".
Proof. reflexivity. Qed.

(** The test vectors of RFC 4648. *)
Example base64_rfc4648 :
  base64 EmptyString = EmptyString /\
  base64 "f" = "Zg==" /\ base64 "fo" = "Zm8=" /\ base64 "foo" = "Zm9v" /\
  base64 "foob" = "Zm9vYg==" /\ base64 "fooba" = "Zm9vYmE=" /\
  base64 "foobar" = "Zm9vYmFy".
Proof. repeat split. Qed.

(** Quotes, backslashes and control characters are escaped. *)
Example quote_escapes :
  quote (String dquote (String backslash (String (ascii_of_N 10)
           (String (ascii_of_N 1) "z"))))
  = String dquote (String backslash (String dquote
      ("\\\n\u0001z" ++ String dquote EmptyString))).
Proof. reflexivity. Qed.

Example number_toString_samples :
  Number_toString 0 = "0" /\ Number_toString 5432 = "5432" /\
  Number_toString (-7) = "-7".
Proof. repeat split. Qed.

Example stringify_sample :
  stringify (JObj [("a", JNum 5432); ("b", JArr [JBool false; JStr "x"]);
                   ("c", JUndefined)])
  = "{" ++ quote "a" ++ ":5432," ++ quote "b" ++ ":[false," ++ quote "x" ++ "]}".
Proof. reflexivity. Qed.

(** A workspace that is not there, on a server that answers the probe: the
    lookup returns nothing. *)
Lemma lookup_failure_probes_witness :
  fst (lookup (T := Scripted)
         (WorkspaceGet (WorkspaceClient.new sample_url sample_auth) "w1")
         (script [Fulfilled not_found; Fulfilled version_ok] []))
  = Fulfilled JUndefined.
Proof.
  destruct (lookup_failure_probes (T := Scripted)
              (WorkspaceGet (WorkspaceClient.new sample_url sample_auth) "w1")
              (script [Fulfilled not_found; Fulfilled version_ok] [])
              not_found eq_refl eq_refl)
    as (reachable & Hprobe & _ & _ & H).
  vm_compute in Hprobe. injection Hprobe as <-. exact H.
Defined.

(** Creating a workspace that exists already. *)
Lemma create_failure_classified_witness :
  fst (WorkspaceClient.create (T := Scripted)
         (WorkspaceClient.new sample_url sample_auth) "w1"
         (script [Fulfilled conflict] []))
  = Rejected (GeoServerResponseError "Unable to add workspace as it already exists"
                (Some "Workspace 'w1' already exists")).
Proof.
  destruct (proj1 (create_failure_classified (T := Scripted))
              (WorkspaceClient.new sample_url sample_auth) "w1"
              (script [Fulfilled conflict] []) conflict eq_refl)
    as (H409 & _).
  destruct (H409 eq_refl) as (e & He & Hclassified).
  rewrite He. f_equal. apply Hclassified. reflexivity.
Defined.

(** C2 fails for [NamespaceClient.create]: on a 409 it raises the generic
    failure, the one it raises on a 500 too, and no failure with a message of
    its own. *)
Lemma namespace_create_conflict_is_generic :
  namespace_create_on_status 409
    = Rejected (GeoServerResponseError default_message
                  (Some "Namespace 'ns1' already exists")) /\
  namespace_create_on_status 409 = namespace_create_on_status 500 /\
  ~ (exists e, namespace_create_on_status 409 = Rejected e /\
               specific_failure e = true).
Proof.
  split; [reflexivity|]. split; [reflexivity|].
  intros (e & He & Hspecific).
  vm_compute in He. injection He as <-. discriminate Hspecific.
Qed.

(** Deleting the default namespace. *)
Lemma delete_failure_classified_witness :
  fst (NamespaceClient.delete (T := Scripted)
         (NamespaceClient.new sample_url sample_auth) "default"
         (script [Fulfilled not_allowed] []))
  = Rejected (GeoServerResponseError "Can't delete default namespace"
                (Some "Method Not Allowed")).
Proof.
  destruct (proj2 (delete_failure_classified (T := Scripted))
              (NamespaceClient.new sample_url sample_auth) "default"
              (script [Fulfilled not_allowed] []) not_allowed eq_refl)
    as (_ & _ & H405 & _).
  destruct (H405 eq_refl) as (e & He & Hclassified).
  rewrite He. f_equal. apply Hclassified. reflexivity.
Defined.

(** An unreachable server: the probe answers [false]. *)
Lemma exists_never_raises_witness :
  fst (AboutClient.exists_ (T := Scripted)
         (AboutClient.new sample_url sample_auth) (script [] []))
  = Fulfilled false.
Proof.
  destruct (exists_never_raises (T := Scripted)
              (AboutClient.new sample_url sample_auth) (script [] []))
    as (_ & Hnetwork & _).
  exact (Hnetwork (FetchError "ECONNREFUSED") eq_refl).
Defined.

(** The facade for a base URL without the separator. *)
Lemma facade_shares_context_witness :
  let c := GeoServerRestClient.new "http://localhost:8080/geoserver/rest"
             "admin" "geoserver" in
  GeoServerRestClient.url c = sample_url /\
  GeoServerRestClient.auth c = sample_auth /\
  WorkspaceClient.url (GeoServerRestClient.workspaces c) = sample_url.
Proof.
  cbv zeta.
  destruct (facade_shares_context (T := Scripted)
              "http://localhost:8080/geoserver/rest" "admin" "geoserver"
              (script [] []))
    as (_ & _ & Happend & Hauth & _ & Hshared & _).
  split; [exact (Happend eq_refl)|]. split; [exact Hauth|].
  reflexivity.
Defined.

(** The store of the spec's example, with [exposePk] left out. *)
Lemma postgis_body_has_nine_entries_witness :
  exists (req : Request) (body : JsValue) (entries : list JsValue),
    issued (snd (DatastoreClient.createPostgisStore (T := Scripted)
                   (DatastoreClient.new sample_url sample_auth)
                   "ws" "ns" "store" "h" 5432 "u" "p" "s" "d" None
                   (script [Fulfilled created] []))) = [req] /\
    req_method req = POST /\
    req_body req = Some (BodyText (stringify body)) /\
    at_path body ["dataStore"; "type"] = Some (JStr "PostGIS") /\
    at_path body ["dataStore"; "connectionParameters"; "entry"] = Some (JArr entries) /\
    List.length entries = 9 /\
    map entry_key entries =
      map Some ["dbtype"; "schema"; "database"; "host"; "port"; "passwd";
                "namespace"; "user"; "Expose primary keys"] /\
    option_map entry_value (nth_error entries 8) = Some (Some (JBool false)).
Proof.
  exact (postgis_body_has_nine_entries (T := Scripted)
           (DatastoreClient.new sample_url sample_auth)
           "ws" "ns" "store" "h" 5432 "u" "p" "s" "d" None
           (script [Fulfilled created] []) (or_introl eq_refl)).
Defined.

(** The serialised body of that store. *)
Example postgis_body_text :
  stringify (DatastoreClient.postgisStoreBody "ws" "ns" "store" "h" 5432 "u" "p" "s" "d"
               None)
  = "{" ++ quote "dataStore" ++ ":{"
    ++ quote "name" ++ ":" ++ quote "store" ++ ","
    ++ quote "type" ++ ":" ++ quote "PostGIS" ++ ","
    ++ quote "enabled" ++ ":true,"
    ++ quote "workspace" ++ ":{" ++ quote "name" ++ ":" ++ quote "ws" ++ "},"
    ++ quote "connectionParameters" ++ ":{" ++ quote "entry" ++ ":["
    ++ "{" ++ quote "@key" ++ ":" ++ quote "dbtype" ++ "," ++ quote "$" ++ ":" ++ quote "postgis" ++ "},"
    ++ "{" ++ quote "@key" ++ ":" ++ quote "schema" ++ "," ++ quote "$" ++ ":" ++ quote "s" ++ "},"
    ++ "{" ++ quote "@key" ++ ":" ++ quote "database" ++ "," ++ quote "$" ++ ":" ++ quote "d" ++ "},"
    ++ "{" ++ quote "@key" ++ ":" ++ quote "host" ++ "," ++ quote "$" ++ ":" ++ quote "h" ++ "},"
    ++ "{" ++ quote "@key" ++ ":" ++ quote "port" ++ "," ++ quote "$" ++ ":5432},"
    ++ "{" ++ quote "@key" ++ ":" ++ quote "passwd" ++ "," ++ quote "$" ++ ":" ++ quote "p" ++ "},"
    ++ "{" ++ quote "@key" ++ ":" ++ quote "namespace" ++ "," ++ quote "$" ++ ":" ++ quote "ns" ++ "},"
    ++ "{" ++ quote "@key" ++ ":" ++ quote "user" ++ "," ++ quote "$" ++ ":" ++ quote "u" ++ "},"
    ++ "{" ++ quote "@key" ++ ":" ++ quote "Expose primary keys" ++ "," ++ quote "$" ++ ":false}"
    ++ "]}}}".
Proof. reflexivity. Qed.

(** The upload of a file of 1024 bytes. *)
Lemma geotiff_upload_request_witness :
  exists (req : Request) (contentLength : string),
    newly_issued sample_upload (script [Fulfilled created] sample_files) = [req] /\
    req_method req = PUT /\
    req_url req =
      (sample_url ++ geotiff_path "my-workspace" "my-rasterstore")
      ++ "?filename=" ++ "my-raster-name" ++ "&coverageName=" ++ "my-raster-name" /\
    Headers_get (req_headers req) "Content-Type" = Some "image/tiff" /\
    Headers_get (req_headers req) "Content-Length" = Some contentLength /\
    contentLength = "1024" /\
    parse_decimal contentLength = Some 1024%N /\
    req_body req = Some (BodyStream "test/sample_data/world.geotiff").
Proof.
  exact (geotiff_upload_request (T := Scripted)
           (DatastoreClient.new sample_url sample_auth)
           "my-workspace" "my-rasterstore" "my-raster-name" None
           "test/sample_data/world.geotiff"
           (script [Fulfilled created] sample_files)).
Defined.

(** Without a title the file is named after the layer. *)
Lemma geotiff_filename_fallback_witness :
  exists req : Request,
    newly_issued sample_upload (script [Fulfilled created] sample_files) = [req] /\
    req_url req =
      (sample_url ++ geotiff_path "my-workspace" "my-rasterstore")
      ++ "?filename=my-raster-name&coverageName=my-raster-name".
Proof.
  destruct (geotiff_filename_fallback (T := Scripted)
              (DatastoreClient.new sample_url sample_auth)
              "my-workspace" "my-rasterstore" "my-raster-name" None
              "test/sample_data/world.geotiff"
              (script [Fulfilled created] sample_files) {| size := 1024 |} eq_refl)
    as (req & filename & Hissued & Hurl & Hfallback & _).
  exists req. split; [exact Hissued|].
  rewrite Hurl, (Hfallback (or_introl eq_refl)). reflexivity.
Defined.

(** A failure answer whose body cannot be read: [getVersion] fails with the
    error of the body. *)
Lemma response_text_rejection_propagates_witness :
  fst (AboutClient.getVersion (T := Scripted)
         (AboutClient.new sample_url sample_auth)
         (script [Fulfilled broken_body] []))
  = Rejected (FetchError "Premature close").
Proof.
  destruct (response_text_rejection_propagates (T := Scripted) broken_body
              (FetchError "Premature close") (script [Fulfilled broken_body] [])
              eq_refl)
    as (_ & _ & _ & Hversion).
  exact (proj1 (Hversion (AboutClient.new sample_url sample_auth) eq_refl eq_refl)).
Defined.

(** Settings whose [global] has no [settings]: the assignment throws, after
    the one request that fetched the settings. *)
Lemma proxy_guard_on_malformed_settings_witness :
  exists message,
    fst (update_proxy_on settings_without_settings) = Rejected (TypeError message) /\
    List.length (issued (snd (update_proxy_on settings_without_settings))) = 1.
Proof.
  destruct (proxy_guard_on_malformed_settings (T := Scripted)
              (SettingsClient.new sample_url sample_auth)
              "http://proxy.example/geoserver"
              (script [Fulfilled (settings_reply settings_without_settings)] [])
              _ settings_without_settings eq_refl)
    as (_ & Hpasses & _).
  destruct (Hpasses (JObj [("jai", JObj [])]) eq_refl eq_refl eq_refl)
    as (_ & message & _ & Houtcome).
  exists message. unfold update_proxy_on. rewrite Houtcome. split; reflexivity.
Defined.

(** C9 fails on settings whose [global] is [false]: [global] is there,
    [global.settings] is not, and the guard does not pass but makes the
    operation return [false]. *)
Lemma proxy_guard_returns_false :
  at_path settings_global_false ["global"] = Some (JBool false) /\
  at_path settings_global_false ["global"; "settings"] = None /\
  fst (SettingsClient.settings_guard (T := Scripted) settings_global_false
         (script [] [])) = Fulfilled true /\
  fst (update_proxy_on settings_global_false) = Fulfilled (JBool false).
Proof. repeat split. Qed.

(** * Further properties of the clients *)

Lemma append_assoc (a b c : string) : (a ++ b) ++ c = a ++ (b ++ c).
Proof.
  induction a as [|x a IH]; [reflexivity|].
  cbn [append]. rewrite IH. reflexivity.
Qed.

Section Requests.
Context {T : Transport}.
Variable P : Request -> Prop.

Lemma issues_ret {A : Type} (a : A) : issues P 0 (ret a).
Proof.
  intros st. exists []. cbn [snd]. rewrite app_nil_r.
  repeat split; [reflexivity | constructor].
Qed.

Lemma issues_raise {A : Type} (e : JsError) : issues P 0 (@raise _ _ _ A e).
Proof.
  intros st. exists []. cbn [snd]. rewrite app_nil_r.
  repeat split; [reflexivity | constructor].
Qed.

Lemma issues_await {A : Type} (p : Settled A) : issues P 0 (await p).
Proof.
  intros st. exists []. cbn [snd]. rewrite app_nil_r.
  repeat split; [reflexivity | constructor].
Qed.

Lemma issues_sync {A : Type} (c : World -> Completion A) : issues P 0 (sync c).
Proof.
  intros st. exists []. rewrite sync_run. cbn [snd]. rewrite app_nil_r.
  repeat split; [reflexivity | constructor].
Qed.

Lemma issues_eval {A : Type} (c : Completion A) : issues P 0 (eval c).
Proof. apply issues_sync. Qed.

Lemma issues_fetch (req : Request) : P req -> issues P 1 (fetch req).
Proof.
  intros Hreq st. exists [req]. rewrite fetch_run.
  repeat split; [reflexivity | constructor; [exact Hreq | constructor]].
Qed.

Lemma issues_bind {A B : Type} (n m : nat) (c : Async A) (k : A -> Async B) :
  issues P n c -> (forall a, issues P m (k a)) -> issues P (n + m) (bind c k).
Proof.
  intros Hc Hk st. rewrite bind_run.
  destruct (Hc st) as (reqs & Hlog & Hlen & Hall).
  destruct (c st) as [[a|e] st1]; cbn [snd] in Hlog.
  - destruct (Hk a st1) as (reqs' & Hlog' & Hlen' & Hall').
    exists (reqs ++ reqs')%list. rewrite Hlog', Hlog, app_assoc.
    split; [reflexivity|]. split.
    + rewrite length_app. lia.
    + apply Forall_app. split; assumption.
  - exists reqs. cbn [snd]. split; [exact Hlog|]. split; [lia | exact Hall].
Qed.

Lemma issues_catch {A : Type} (n m : nat) (c : Async A) (h : JsError -> Async A) :
  issues P n c -> (forall e, issues P m (h e)) -> issues P (n + m) (catch c h).
Proof.
  intros Hc Hh st. rewrite catch_run.
  destruct (Hc st) as (reqs & Hlog & Hlen & Hall).
  destruct (c st) as [[a|e] st1]; cbn [snd] in Hlog.
  - exists reqs. cbn [snd]. split; [exact Hlog|]. split; [lia | exact Hall].
  - destruct (Hh e st1) as (reqs' & Hlog' & Hlen' & Hall').
    exists (reqs ++ reqs')%list. rewrite Hlog', Hlog, app_assoc.
    split; [reflexivity|]. split.
    + rewrite length_app. lia.
    + apply Forall_app. split; assumption.
Qed.

Lemma issues_if {A : Type} (n m : nat) (b : bool) (c d : Async A) :
  issues P n c -> issues P m d -> issues P (Nat.max n m) (if b then c else d).
Proof.
  intros Hc Hd st. destruct b.
  - destruct (Hc st) as (reqs & Hlog & Hlen & Hall).
    exists reqs. split; [exact Hlog|]. split; [lia | exact Hall].
  - destruct (Hd st) as (reqs & Hlog & Hlen & Hall).
    exists reqs. split; [exact Hlog|]. split; [lia | exact Hall].
Qed.

Lemma issues_weaken {A : Type} (n m : nat) (c : Async A) :
  issues P n c -> (n <= m)%nat -> issues P m c.
Proof.
  intros Hc Hle st. destruct (Hc st) as (reqs & Hlog & Hlen & Hall).
  exists reqs. split; [exact Hlog|]. split; [lia | exact Hall].
Qed.

Lemma issues_getGeoServerResponseText (response : Response) :
  issues P 0 (getGeoServerResponseText response).
Proof. apply issues_await. Qed.

End Requests.

(** One step of a proof that follows the code of an operation. *)
Ltac issues_step :=
  lazymatch goal with
  | |- issues _ _ (if _ then _ else _) => eapply issues_if
  | |- issues _ _ (bind _ _) => eapply issues_bind; [|intro]
  | |- issues _ _ (catch _ _) => eapply issues_catch; [|intro]
  | |- issues _ _ (ret _) => apply issues_ret
  | |- issues _ _ (raise _) => apply issues_raise
  | |- issues _ _ (await _) => apply issues_await
  | |- issues _ _ (sync _) => apply issues_sync
  | |- issues _ _ (eval _) => apply issues_eval
  | |- issues _ _ (getGeoServerResponseText _) =>
      apply issues_getGeoServerResponseText
  | |- issues _ _ (fetch _) => apply issues_fetch
  end.

Ltac unfold_operations :=
  unfold discard, lookup,
    AboutClient.exists_, AboutClient.getVersion,
    WorkspaceClient.getAll, WorkspaceClient.get, WorkspaceClient.create,
    WorkspaceClient.delete,
    NamespaceClient.getAll, NamespaceClient.get, NamespaceClient.create,
    NamespaceClient.delete,
    DatastoreClient.getDataStores, DatastoreClient.getCoverageStores,
    DatastoreClient.getWmsStores, DatastoreClient.getWmtsStores,
    DatastoreClient.getDataStore, DatastoreClient.getCoverageStore,
    DatastoreClient.getWmsStore, DatastoreClient.getWmtsStore,
    DatastoreClient.getStores, DatastoreClient.getStore,
    DatastoreClient.createGeotiffFromFile, DatastoreClient.createPostgisStore,
    DatastoreClient.createImageMosaicStore, DatastoreClient.createWmsStore,
    DatastoreClient.createWmtsStore, DatastoreClient.createWfsStore,
    DatastoreClient.deleteDataStore, DatastoreClient.deleteCoverageStore,
    DatastoreClient.createGpkgStore,
    SettingsClient.getSettings, SettingsClient.updateSettings,
    SettingsClient.updateProxyBaseUrl, SettingsClient.settings_guard,
    SettingsClient.assign_proxyBaseUrl, SettingsClient.getContactInformation,
    SettingsClient.updateContactInformation;
  cbv zeta.

Ltac authenticated_request :=
  unfold authenticated; cbn [fst snd req_headers req_url];
  split; [reflexivity | eexists; first [reflexivity | apply append_assoc]].

Section Operations.
Context {T : Transport}.

(** Every operation adds to the log nothing but requests that carry the
    credentials of its client and go below its base URL: one request at most,
    or two for the operations in two steps. *)
Lemma perform_issues (op : Operation) :
  issues (authenticated (operation_context op)) (if two_step op then 2 else 1)
    (perform op).
Proof.
  destruct op as [c|c|c|c ?|c ? ?|c|c ? ?|c ?|l|c ? ?|c ?|c ?|c ?|c ?
                 |c ? ? ? ? ?|c ? ? ? ? ? ? ? ? ? ?|c ? ? ?|c ? ? ?|c ? ? ?
                 |c ? ? ? ? ?|c ? ? ?|c ? ? ?|c ? ? ?|c|c ?|c ?|c
                 |c ? ? ? ? ? ? ? ? ?];
    try destruct l;
    cbn [perform operation_context lookup_context two_step];
    repeat (progress unfold_operations);
    (eapply issues_weaken;
     [ repeat issues_step; authenticated_request
     | cbn; lia ]).
Qed.

End Operations.

Section OperationProperties.
Context {T : Transport}.

(** X1: whatever an operation of the workspace, namespace, data store,
    settings or about client does, it only appends to the log of requests, and
    every request it appends carries the Authorization value of its client and
    has a URL that starts with the base URL of its client. *)
Theorem requests_are_authenticated (op : Operation) (st : State) :
  issued (snd (perform op st))
    = (issued st ++ newly_issued (perform op) st)%list /\
  Forall (authenticated (operation_context op)) (newly_issued (perform op) st).
Proof.
  destruct (perform_issues op st) as (reqs & Hlog & _ & Hall).
  rewrite (newly_issued_app _ _ _ Hlog). split; assumption.
Qed.

(** X2: an operation makes at most one exchange with the server; only the
    single-item lookups and [updateProxyBaseUrl] may make two, and no
    operation makes more. *)
Theorem round_trips_bounded (op : Operation) (st : State) :
  (List.length (newly_issued (perform op) st) <= if two_step op then 2 else 1)%nat.
Proof.
  destruct (perform_issues op st) as (reqs & Hlog & Hlen & _).
  rewrite (newly_issued_app _ _ _ Hlog). exact Hlen.
Qed.

(** X3: a lookup consults the prober on a failure status only.  When the
    transport itself rejects the GET, the lookup is rejected with that very
    error, and when the GET succeeds the lookup gives what decoding the body
    gives; in both cases the GET is the only request. *)
Theorem lookup_without_probe (l : Lookup) (st : State) :
  (forall e, fst (send (lookup_request l) (world st)) = Rejected e ->
     lookup l st = (Rejected e, sent (lookup_request l) st)) /\
  (forall response,
     fst (send (lookup_request l) (world st)) = Fulfilled response ->
     ok response = true ->
     lookup l st = (json response, sent (lookup_request l) st)).
Proof.
  rewrite lookup_read_item. unfold lookup_request. split.
  - intros e Hsend. unfold read_item. rewrite bind_run, fetch_run, Hsend.
    reflexivity.
  - intros response Hsend Hok. apply read_item_success; assumption.
Qed.

(** X4: after a failure status a lookup settles to a value only by
    returning [undefined], and it does so exactly when the version request
    that follows is answered with a success status and a truthy document. *)
Theorem lookup_empty_iff_reachable (l : Lookup) (st : State) (response : Response) :
  fst (send (lookup_request l) (world st)) = Fulfilled response ->
  ok response = false ->
  (forall v, fst (lookup l st) = Fulfilled v -> v = JUndefined) /\
  (fst (lookup l st) = Fulfilled JUndefined <->
   exists version versionInfo,
     fst (send (version_request (lookup_prober l))
            (world (sent (lookup_request l) st))) = Fulfilled version /\
     ok version = true /\
     json version = Fulfilled versionInfo /\
     truthy versionInfo = true).
Proof.
  intros Hsend Hok. rewrite lookup_read_item.
  unfold lookup_request in Hsend.
  rewrite (read_item_failure _ _ _ _ _ Hsend Hok).
  fold (lookup_request l). fold (lookup_prober l).
  cbv zeta. cbn [fst]. rewrite exists_run, getVersion_run. cbn [fst].
  destruct (fst (send (version_request (lookup_prober l))
                   (world (sent (lookup_request l) st)))) as [version|e].
  - destruct (ok version) eqn:Hvok.
    + destruct (json version) as [info|e] eqn:Hjson.
      * destruct (truthy info) eqn:Htruthy.
        -- split; [intros v Hv; injection Hv as <-; reflexivity|].
           split; [|reflexivity].
           intros _. exists version, info. repeat split; assumption.
        -- split; [destruct (text response); discriminate|].
           split; [destruct (text response); discriminate|].
           intros (version' & info' & Hv & _ & Hj & Ht).
           injection Hv as <-. rewrite Hjson in Hj. injection Hj as <-.
           rewrite Htruthy in Ht. discriminate Ht.
      * split; [destruct (text response); discriminate|].
        split; [destruct (text response); discriminate|].
        intros (version' & info' & Hv & _ & Hj & _).
        injection Hv as <-. rewrite Hjson in Hj. discriminate Hj.
    + assert (Hfalse : match (match text version with
                              | Fulfilled t =>
                                  Rejected (new_GeoServerResponseError None (Some t))
                              | Rejected e => Rejected e
                              end : Settled JsValue) with
                       | Fulfilled versionInfo => truthy versionInfo
                       | Rejected _ => false
                       end = false) by (destruct (text version); reflexivity).
      rewrite Hfalse.
      split; [destruct (text response); discriminate|].
      split; [destruct (text response); discriminate|].
      intros (version' & info' & Hv & Hvok' & _).
      injection Hv as <-. rewrite Hvok in Hvok'. discriminate Hvok'.
  - split; [destruct (text response); discriminate|].
    split; [destruct (text response); discriminate|].
    intros (version' & info' & Hv & _). discriminate Hv.
Qed.

End OperationProperties.

Section GenericFailures.
Context {T : Transport}.

Lemma discard_run {A : Type} (c : Async A) (st : State) :
  discard c st =
  (match fst (c st) with
   | Fulfilled _ => Fulfilled tt
   | Rejected e => Rejected e
   end, snd (c st)).
Proof.
  unfold discard. rewrite bind_run. destruct (c st) as [[a|e] st']; reflexivity.
Qed.

(** The generic pattern on a failure status: one request, then the failure. *)
Lemma generic_failure_run {A : Type} (req : Request) (result : Response -> Async A)
  (st : State) (response : Response) :
  fst (send req (world st)) = Fulfilled response ->
  ok response = false ->
  bind (fetch req)
       (fun response =>
          if negb (ok response)
          then geoServerResponse <- getGeoServerResponseText response ;;
               raise (new_GeoServerResponseError None geoServerResponse)
          else result response) st
  = (match text response with
     | Fulfilled t => Rejected (new_GeoServerResponseError None (Some t))
     | Rejected e => Rejected e
     end, sent req st).
Proof.
  intros Hsend Hok. rewrite bind_run, fetch_run, Hsend, Hok. cbn [negb].
  apply throw_run.
Qed.

Lemma discarded_failure {A : Type} (response : Response) :
  raises_classified
    (match (match text response with
            | Fulfilled t => @Rejected A (new_GeoServerResponseError None (Some t))
            | Rejected e => Rejected e
            end) with
     | Fulfilled _ => Fulfilled tt
     | Rejected e => Rejected e
     end) default_message response.
Proof.
  unfold raises_classified. destruct (text response) as [t|e].
  - eexists. split; [reflexivity|]. intros t' Ht. injection Ht as <-. reflexivity.
  - exists e. split; [reflexivity|]. intros t Ht. discriminate Ht.
Qed.

Lemma newly_issued_sent {A : Type} (op : Async A) (req : Request) (st : State) :
  snd (op st) = sent req st -> newly_issued op st = [req].
Proof.
  intros H. apply newly_issued_app. rewrite H. reflexivity.
Qed.

Lemma newly_issued_discard {A : Type} (c : Async A) (st : State) :
  newly_issued (discard c) st = newly_issued c st.
Proof. unfold newly_issued. rewrite discard_run. reflexivity. Qed.

(** X5: the list operations, the data store and namespace creations, the
    data store deletion and the settings operations treat every failure
    status alike, 404 and 409 included: against a server that answers with a
    failure status they make one request and raise the generic failure, which
    carries the response text. *)
Theorem failure_status_is_generic (op : Operation) (st : State)
  (response : Response) :
  generic_on_failure op = true ->
  (forall req, fst (send req (world st)) = Fulfilled response) ->
  ok response = false ->
  raises_classified (fst (perform op st)) default_message response /\
  List.length (newly_issued (perform op) st) = 1.
Proof.
  intros Hgeneric Hsend Hok.
  destruct op; try discriminate Hgeneric; cbn [perform]; split.
  all: try (rewrite ?discard_run;
            repeat (progress unfold_operations);
            rewrite (generic_failure_run _ _ _ _ (Hsend _) Hok); cbn [fst snd];
            first [ exact (discarded_failure response)
                  | exact (throw_classified None response) ]).
  all: rewrite ?newly_issued_discard;
    erewrite newly_issued_sent; [reflexivity|];
    repeat (progress unfold_operations);
    rewrite (generic_failure_run _ _ _ _ (Hsend _) Hok); reflexivity.
Qed.

End GenericFailures.

Section MoreDatastores.
Context {T : Transport}.

Lemma coveragestore_delete_run (c : DatastoreClient.t)
  (workspace coverageStore recurse : string) (st : State) (response : Response) :
  fst (send (coveragestore_delete_request c workspace coverageStore recurse)
         (world st)) = Fulfilled response ->
  DatastoreClient.deleteCoverageStore c workspace coverageStore recurse st =
  (if ok response then Fulfilled tt
   else match text response with
        | Fulfilled t =>
            Rejected (new_GeoServerResponseError
              (if (status response =? 401)%Z then Some dependants_message else None)
              (Some t))
        | Rejected e => Rejected e
        end,
   sent (coveragestore_delete_request c workspace coverageStore recurse) st).
Proof.
  intros Hsend. unfold DatastoreClient.deleteCoverageStore. cbv zeta.
  rewrite bind_run.
  change (fetch _)
    with (fetch (coveragestore_delete_request c workspace coverageStore recurse)).
  rewrite fetch_run, Hsend.
  destruct (ok response); cbn [negb]; [reflexivity|].
  rewrite bind_run, getGeoServerResponseText_run.
  destruct (text response) as [t|e]; cbn [Settled_map]; [|reflexivity].
  destruct (status response =? 401)%Z; reflexivity.
Qed.

(** X6: [deleteCoverageStore] has a table of one status: 401 gives the
    failure that points at dependant objects, every other failure status
    gives the generic failure, each carrying the response text; on a success
    status it settles without a value. *)
Theorem coveragestore_delete_classified (c : DatastoreClient.t)
  (workspace coverageStore recurse : string) (st : State) (response : Response) :
  fst (send (coveragestore_delete_request c workspace coverageStore recurse)
         (world st)) = Fulfilled response ->
  let outcome :=
    fst (DatastoreClient.deleteCoverageStore c workspace coverageStore recurse st) in
  (status response = 401%Z ->
   raises_classified outcome dependants_message response) /\
  (ok response = false -> status response <> 401%Z ->
   raises_classified outcome default_message response) /\
  (ok response = true -> outcome = Fulfilled tt).
Proof.
  intros Hsend outcome. unfold outcome.
  rewrite (coveragestore_delete_run _ _ _ _ _ _ Hsend).
  split; [|split].
  - intros Hs. rewrite (failure_status _ _ Hs eq_refl), Hs. classified_failure.
  - intros Hok H401. apply Z.eqb_neq in H401. rewrite Hok, H401.
    classified_failure.
  - intros ->. reflexivity.
Qed.

(** X7: [createImageMosaicStore] sends the archive without examining it:
    whatever the file system holds, it makes one PUT to the
    [file.imagemosaic] path of the store with Content-Type [application/zip],
    the read stream of the archive as body, and no Content-Length header. *)
Theorem imagemosaic_upload_request (c : DatastoreClient.t)
  (workspace coverageStore zipArchivePath : string) (st : State) :
  exists req : Request,
    newly_issued (DatastoreClient.createImageMosaicStore c workspace coverageStore
                    zipArchivePath) st = [req] /\
    req_method req = PUT /\
    req_url req = DatastoreClient.url c ++ "workspaces/" ++ workspace
                  ++ "/coveragestores/" ++ coverageStore ++ "/file.imagemosaic" /\
    Headers_get (req_headers req) "Content-Type" = Some "application/zip" /\
    Headers_get (req_headers req) "Content-Length" = None /\
    req_body req = Some (BodyStream zipArchivePath).
Proof.
  eexists. split.
  - apply newly_issued_app.
    unfold DatastoreClient.createImageMosaicStore. cbv zeta.
    apply fetch_first_issued. intros response st'.
    apply (throw_or_return_quiet None). reflexivity.
  - cbn [req_method req_url req_headers req_body]. repeat split; reflexivity.
Qed.

End MoreDatastores.

(** ** Serialising objects *)

Lemma stringify_members (props : list (string * JsValue)) :
  stringify (JObj props) = "{" ++ members true props ++ "}".
Proof.
  reflexivity.
Qed.

(** A property whose value was not given is not printed. *)
Lemma members_provided (first : bool) (fields : list (string * option string)) :
  members first (map (fun f => (fst f, opt_str (snd f))) fields)
  = members first (provided fields).
Proof.
  revert first. induction fields as [|[k [s|]] rest IH]; intros first;
    cbn [map provided members fst snd opt_str]; rewrite ?IH; reflexivity.
Qed.

Section Contact.
Context {T : Transport}.

(** X8: [updateContactInformation] leaves the arguments that were not given
    out of the body: it makes one PUT to [settings/contact] whose body is the
    serialisation of a [contact] object holding exactly the fields that were
    given, in the order of the parameters. *)
Theorem contact_body_omits_missing (c : SettingsClient.t)
  (address city country postalCode state email organization contactPerson
   phoneNumber : option string) (st : State) :
  exists req : Request,
    newly_issued (SettingsClient.updateContactInformation c address city country
                    postalCode state email organization contactPerson phoneNumber)
      st = [req] /\
    req_method req = PUT /\
    req_url req = SettingsClient.url c ++ "settings/contact" /\
    req_body req =
      Some (BodyText (stringify (JObj [("contact", JObj (provided
        [("address", address); ("addressCity", city); ("addressCountry", country);
         ("addressPostalCode", postalCode); ("addressState", state);
         ("contactEmail", email); ("contactOrganization", organization);
         ("contactPerson", contactPerson); ("contactVoice", phoneNumber)]))]))).
Proof.
  eexists. split.
  - apply newly_issued_app.
    unfold SettingsClient.updateContactInformation. cbv zeta.
    apply fetch_first_issued. intros response st'.
    apply (throw_or_return_quiet None). reflexivity.
  - cbn [req_method req_url req_body]. repeat split.
    cbn [JSON_stringify option_map]. do 2 f_equal.
    rewrite (stringify_members [("contact", JObj (provided _))]).
    rewrite (stringify_members [("contact", JObj _)]).
    cbn [members]. rewrite !stringify_members.
    rewrite <- (members_provided true). reflexivity.
Qed.

End Contact.

(** ** Writing and reading properties *)

Lemma assoc_set_same (k : string) (v : JsValue) (props : list (string * JsValue)) :
  assoc k (assoc_set k v props) = Some v.
Proof.
  induction props as [|[k' v'] rest IH]; cbn [assoc_set assoc].
  - rewrite String.eqb_refl. reflexivity.
  - destruct (k' =? k) eqn:E; cbn [assoc]; rewrite E; [reflexivity | exact IH].
Qed.

Lemma assoc_set_other (k k' : string) (v : JsValue) (props : list (string * JsValue)) :
  k' <> k -> assoc k' (assoc_set k v props) = assoc k' props.
Proof.
  intros Hne. induction props as [|[k0 v0] rest IH]; cbn [assoc_set assoc].
  - destruct (k =? k') eqn:E; [|reflexivity].
    apply String.eqb_eq in E. congruence.
  - destruct (k0 =? k) eqn:E; cbn [assoc].
    + apply String.eqb_eq in E. subst k0.
      destruct (k =? k') eqn:E'; [|reflexivity].
      apply String.eqb_eq in E'. congruence.
    + rewrite IH. reflexivity.
Qed.

(** A property that is there keeps its place when it is written. *)
Lemma assoc_set_keys (k : string) (v v0 : JsValue) (props : list (string * JsValue)) :
  assoc k props = Some v0 ->
  map fst (assoc_set k v props) = map fst props.
Proof.
  induction props as [|[k' v'] rest IH]; cbn [assoc assoc_set]; [discriminate|].
  destruct (k' =? k); cbn [map fst]; [reflexivity|].
  intros H. rewrite (IH H). reflexivity.
Qed.

Section ProxyUpdate.
Context {T : Transport}.

(** X9: on settings whose [global.settings] is an object,
    [updateProxyBaseUrl] is [getSettings] followed by [updateSettings] of a
    document that has [global.settings.proxyBaseUrl] set to the argument and
    is the fetched document everywhere else, its top-level properties in
    their order; it settles with [undefined] when the update succeeds and
    with the failure of the update otherwise. *)
Theorem proxy_update_changes_one_property (this : SettingsClient.t)
  (proxyBaseUrl : string) (st st1 : State) (settingsJson : JsValue)
  (global settings : list (string * JsValue)) :
  SettingsClient.getSettings this st = (Fulfilled settingsJson, st1) ->
  at_path settingsJson ["global"] = Some (JObj global) ->
  assoc "settings" global = Some (JObj settings) ->
  exists updated props props',
    settingsJson = JObj props /\ updated = JObj props' /\
    SettingsClient.updateProxyBaseUrl this proxyBaseUrl st =
      (match fst (SettingsClient.updateSettings this updated st1) with
       | Fulfilled _ => Fulfilled JUndefined
       | Rejected e => Rejected e
       end, snd (SettingsClient.updateSettings this updated st1)) /\
    at_path updated ["global"; "settings"; "proxyBaseUrl"]
      = Some (JStr proxyBaseUrl) /\
    (forall k rest, k <> "proxyBaseUrl" ->
       at_path updated ("global" :: "settings" :: k :: rest)
       = at_path settingsJson ("global" :: "settings" :: k :: rest)) /\
    (forall k rest, k <> "settings" ->
       at_path updated ("global" :: k :: rest)
       = at_path settingsJson ("global" :: k :: rest)) /\
    (forall k rest, k <> "global" ->
       at_path updated (k :: rest) = at_path settingsJson (k :: rest)) /\
    map fst props' = map fst props.
Proof.
  intros Hget Hglobal Hsettings.
  destruct settingsJson as [| | | | | |props]; try discriminate Hglobal.
  cbn [at_path] in Hglobal.
  destruct (assoc "global" props) as [g|] eqn:Hg; [|discriminate Hglobal].
  injection Hglobal as ->.
  exists (JObj (assoc_set "global"
                  (JObj (assoc_set "settings"
                           (JObj (assoc_set "proxyBaseUrl" (JStr proxyBaseUrl)
                                    settings)) global)) props)).
  eexists. eexists. split; [reflexivity|]. split; [reflexivity|].
  split; [|split; [|split; [|split; [|split]]]].
  - rewrite (updateProxyBaseUrl_run _ _ _ _ _ Hget).
    rewrite settings_guard_run, assign_proxyBaseUrl_run.
    cbn [get_prop fst]. rewrite Hg. cbn [truthy get_prop]. rewrite Hsettings.
    cbn [set_prop with_prop fst]. reflexivity.
  - cbn [at_path]. rewrite !assoc_set_same. reflexivity.
  - intros k rest Hk. cbn [at_path].
    rewrite !assoc_set_same, Hg, Hsettings.
    rewrite (assoc_set_other _ _ _ _ Hk). reflexivity.
  - intros k rest Hk. cbn [at_path].
    rewrite assoc_set_same, Hg.
    rewrite (assoc_set_other _ _ _ _ Hk). reflexivity.
  - intros k rest Hk. cbn [at_path].
    rewrite (assoc_set_other _ _ _ _ Hk). reflexivity.
  - apply (assoc_set_keys _ _ _ _ Hg).
Qed.

End ProxyUpdate.

(** ** The facade, further *)

(** X10: the constructor normalises the base URL once and for all: building
    a facade from the base URL of a facade gives that facade again, and a
    caller who writes the separator gets the facade of the caller who leaves
    it out. *)
Theorem facade_normalisation_idempotent (url user password : string) :
  endsWith url "/" = false ->
  let g := GeoServerRestClient.new url user password in
  GeoServerRestClient.new (GeoServerRestClient.url g) user password = g /\
  GeoServerRestClient.new (url ++ "/") user password = g.
Proof.
  intros E. cbv zeta. unfold GeoServerRestClient.new.
  cbn [GeoServerRestClient.url].
  rewrite E, (endsWith_app url "/"). split; reflexivity.
Qed.

(** ** Names in URLs *)

Lemma append_inj_l (p a b : string) : p ++ a = p ++ b -> a = b.
Proof.
  induction p as [|x p IH]; cbn [append]; intros H; [exact H|].
  injection H as H. exact (IH H).
Qed.

Lemma append_length (a b : string) :
  String.length (a ++ b) = String.length a + String.length b.
Proof.
  induction a as [|x a IH]; cbn [append String.length]; [reflexivity|].
  rewrite IH. reflexivity.
Qed.

Lemma append_inj_r (a b s : string) : a ++ s = b ++ s -> a = b.
Proof.
  revert b. induction a as [|x a IH]; intros [|y b] H.
  - reflexivity.
  - apply (f_equal String.length) in H.
    cbn [append String.length] in H. rewrite append_length in H. lia.
  - apply (f_equal String.length) in H.
    cbn [append String.length] in H. rewrite append_length in H. lia.
  - cbn [append] in H. injection H as -> H. rewrite (IH _ H). reflexivity.
Qed.

(** Two strings without the separator, each followed by the separator: the
    first separator tells where the strings end. *)
Lemma split_at_separator (c : ascii) (a b r s : string) :
  free_of c a = true -> free_of c b = true ->
  a ++ String c r = b ++ String c s -> a = b /\ r = s.
Proof.
  revert b. induction a as [|x a IH]; intros [|y b] Ha Hb H; cbn [append] in H.
  - injection H as ->. split; reflexivity.
  - injection H as <- _. cbn [free_of] in Hb.
    rewrite Ascii.eqb_refl in Hb. discriminate Hb.
  - injection H as -> _. cbn [free_of] in Ha.
    rewrite Ascii.eqb_refl in Ha. discriminate Ha.
  - injection H as -> H. cbn [free_of] in Ha, Hb.
    apply andb_true_iff in Ha as [_ Ha]. apply andb_true_iff in Hb as [_ Hb].
    destruct (IH b Ha Hb H) as [-> ->]. split; reflexivity.
Qed.

(** X11: names go into the URL as they are, and as long as workspace names
    and store types contain no slash this names the item unambiguously: two
    store lookups on one client that issue the same request are lookups of
    the same store of the same type in the same workspace. *)
Theorem store_request_names_the_store (c : DatastoreClient.t)
  (workspace storeName storeType workspace' storeName' storeType' : string) :
  free_of "/" workspace = true -> free_of "/" storeType = true ->
  free_of "/" workspace' = true -> free_of "/" storeType' = true ->
  lookup_request (GetStore c workspace storeName storeType)
  = lookup_request (GetStore c workspace' storeName' storeType') ->
  workspace = workspace' /\ storeType = storeType' /\ storeName = storeName'.
Proof.
  intros Hw Ht Hw' Ht' H.
  unfold lookup_request, get_request in H.
  cbn [lookup_context lookup_path fst snd] in H.
  injection H as H. apply append_inj_l in H.
  apply (append_inj_l "workspaces/") in H.
  destruct (split_at_separator "/" _ _ _ _ Hw Hw' H) as [-> H1].
  destruct (split_at_separator "/" _ _ _ _ Ht Ht' H1) as [-> H2].
  apply append_inj_r in H2. subst. repeat split.
Qed.

(** X12: nothing escapes a slash in a name: the lookup of the store
    [x/t/y] in workspace [a] and the lookup of the store [y] in workspace
    [a/t/x] issue one and the same request. *)
Theorem store_names_alias (c : DatastoreClient.t) (a x y t : string) :
  lookup_request (GetStore c a (x ++ "/" ++ t ++ "/" ++ y) t)
  = lookup_request (GetStore c (a ++ "/" ++ t ++ "/" ++ x) y t).
Proof.
  unfold lookup_request, get_request.
  cbn [lookup_context lookup_path fst snd]. do 3 f_equal.
  rewrite !append_assoc. reflexivity.
Qed.

Section Flags.
Context {T : Transport}.

(** X13: [createWfsStore] posts a document of type [Web Feature Server (NG)]
    with three connection parameters, the capabilities URL, the namespace and
    the pooling flag; the flag is the argument when one is given, [false]
    included, and [true] only when the argument is left out. *)
Theorem wfs_body_has_three_entries (this : DatastoreClient.t)
  (workspace dataStore wfsCapabilitiesUrl namespaceUrl : string)
  (useHttpConnectionPooling : option bool) (st : State) :
  exists (req : Request) (body : JsValue) (entries : list JsValue),
    newly_issued (DatastoreClient.createWfsStore this workspace dataStore
                    wfsCapabilitiesUrl namespaceUrl useHttpConnectionPooling) st
      = [req] /\
    req_method req = POST /\
    req_url req = DatastoreClient.url this ++ "workspaces/" ++ workspace
                  ++ "/datastores" /\
    req_body req = Some (BodyText (stringify body)) /\
    at_path body ["dataStore"; "name"] = Some (JStr dataStore) /\
    at_path body ["dataStore"; "type"] = Some (JStr "Web Feature Server (NG)") /\
    at_path body ["dataStore"; "connectionParameters"; "entry"] = Some (JArr entries) /\
    map entry_key entries =
      map Some ["WFSDataStoreFactory:GET_CAPABILITIES_URL"; "namespace";
                "WFSDataStoreFactory:USE_HTTP_CONNECTION_POOLING"] /\
    map entry_value entries =
      map Some [JStr wfsCapabilitiesUrl; JStr namespaceUrl;
                JBool (match useHttpConnectionPooling with
                       | Some flag => flag
                       | None => true
                       end)].
Proof.
  eexists. eexists. eexists. split.
  - apply newly_issued_app.
    unfold DatastoreClient.createWfsStore. cbv zeta.
    apply fetch_first_issued. intros response st'.
    apply (throw_or_return_quiet None). reflexivity.
  - cbn [req_method req_url req_body JSON_stringify option_map].
    repeat split; reflexivity.
Qed.

(** X14: the requests of an operation that runs on a client of the facade
    carry the Basic token of the user and the password the facade was built
    with, and go below the base URL the facade was built with, a separator
    added when it had none. *)
Theorem facade_requests_carry_credentials (url user password : string)
  (op : Operation) (st : State) :
  In (operation_context op)
     (GeoServerRestClient.contexts (GeoServerRestClient.new url user password)) ->
  Forall (fun req =>
            Headers_get (req_headers req) "Authorization"
              = Some ("Basic " ++ base64 (user ++ ":" ++ password)) /\
            exists rest,
              req_url req = (if endsWith url "/" then url else url ++ "/") ++ rest)
         (newly_issued (perform op) st).
Proof.
  intros Hin.
  assert (Hctx : operation_context op =
                 (if endsWith url "/" then url else url ++ "/",
                  "Basic " ++ base64 (user ++ ":" ++ password))).
  { cbn in Hin. repeat (destruct Hin as [<-|Hin]; [reflexivity|]). destruct Hin. }
  destruct (perform_issues op st) as (reqs & Hlog & _ & Hall).
  rewrite (newly_issued_app _ _ _ Hlog).
  rewrite Hctx in Hall. exact Hall.
Qed.

End Flags.

Ltac well_formed_request :=
  unfold well_formed; cbn [req_method req_body req_headers JSON_stringify option_map];
  split; [reflexivity | first [ exact I | reflexivity | left; reflexivity
                              | right; reflexivity ]].

Section Shapes.
Context {T : Transport}.

Lemma perform_well_formed (op : Operation) : issues well_formed 2 (perform op).
Proof.
  destruct op as [c|c|c|c ?|c ? ?|c|c ? ?|c ?|l|c ? ?|c ?|c ?|c ?|c ?
                 |c ? ? ? ? ?|c ? ? ? ? ? ? ? ? ? ?|c ? ? ?|c ? ? ?|c ? ? ?
                 |c ? ? ? ? ?|c ? ? ?|c ? ? ?|c ? ? ?|c|c settings|c ?|c
                 |c ? ? ? ? ? ? ? ? ?];
    try destruct l;
    cbn [perform];
    repeat (progress unfold_operations);
    (eapply issues_weaken;
     [ repeat issues_step;
       first [ well_formed_request
             | match goal with
               | |- well_formed {| req_body := option_map _ (JSON_stringify ?v) |} =>
                   destruct v; well_formed_request
               end ]
     | cbn; lia ]).
Qed.

(** X16: in every request of every operation, method, body and content type
    go together: a GET or DELETE has no body, a text body comes with
    Content-Type [application/json], and a file body with [image/tiff] or
    [application/zip]. *)
Theorem requests_are_well_formed (op : Operation) (st : State) :
  Forall well_formed (newly_issued (perform op) st).
Proof.
  destruct (perform_well_formed op st) as (reqs & Hlog & _ & Hall).
  rewrite (newly_issued_app _ _ _ Hlog). exact Hall.
Qed.

(** X15: when the transport rejects every request with [e], every
    operation but two is rejected with [e] itself, not with a classified
    failure: the probe alone turns it into [false], and the GeoTIFF upload
    fails with the error of the file system when it cannot examine its
    file. *)
Theorem offline_error_propagates (op : Operation) (st : State) (e : JsError) :
  (forall req w, fst (send req w) = Rejected e) ->
  fst (perform op st) = outcome_when_offline e op st.
Proof.
  intros Hsend.
  destruct op as [c|c|c|c ?|c ? ?|c|c ? ?|c ?|l|c ? ?|c ?|c ?|c ?|c ?
                 |c ? ? ? ? ?|c ? ? ? ? ? ? ? ? ? ?|c ? ? ?|c ? ? ?|c ? ? ?
                 |c ? ? ? ? ?|c ? ? ?|c ? ? ?|c ? ? ?|c|c settings|c ?|c
                 |c ? ? ? ? ? ? ? ? ?];
    try destruct l;
    cbn [perform outcome_when_offline];
    rewrite ?discard_run;
    repeat (progress unfold_operations);
    rewrite ?catch_run, ?bind_run, ?sync_run;
    try (destruct (statSync _ (world st)); [|reflexivity]);
    rewrite ?bind_run, ?fetch_run, ?Hsend; reflexivity.
Qed.

End Shapes.

(** * The further properties on sample exchanges *)

(** A missing workspace on a server whose version request then fails: the
    lookup does not return nothing. *)
Lemma lookup_empty_iff_reachable_witness :
  fst (lookup (T := Scripted) (WorkspaceGet sample_workspaces "w1")
         (script [Fulfilled not_found] [])) <> Fulfilled JUndefined.
Proof.
  intros H.
  destruct (proj1 (proj2 (lookup_empty_iff_reachable (T := Scripted)
                            (WorkspaceGet sample_workspaces "w1")
                            (script [Fulfilled not_found] []) not_found
                            eq_refl eq_refl)) H)
    as (version & versionInfo & Hversion & _).
  discriminate Hversion.
Defined.

(** Creating a namespace that exists already. *)
Lemma failure_status_is_generic_witness :
  raises_classified
    (fst (perform (T := Scripted)
            (NamespaceCreate (NamespaceClient.new sample_url sample_auth)
               "ns1" "http://ns1")
            (script [Fulfilled conflict] [])))
    default_message conflict.
Proof.
  exact (proj1 (failure_status_is_generic (T := Scripted)
                  (NamespaceCreate (NamespaceClient.new sample_url sample_auth)
                     "ns1" "http://ns1")
                  (script [Fulfilled conflict] []) conflict eq_refl
                  (fun _ => eq_refl) eq_refl)).
Defined.

(** Deleting a coverage store that others depend on. *)
Lemma coveragestore_delete_classified_witness :
  fst (DatastoreClient.deleteCoverageStore (T := Scripted) sample_datastores
         "my-workspace" "my-rasterstore" "false"
         (script [Fulfilled has_dependants] []))
  = Rejected (GeoServerResponseError dependants_message
                (Some "Store has dependants")).
Proof.
  destruct (coveragestore_delete_classified (T := Scripted) sample_datastores
              "my-workspace" "my-rasterstore" "false"
              (script [Fulfilled has_dependants] []) has_dependants eq_refl)
    as (H401 & _).
  destruct (H401 eq_refl) as (e & He & Hclassified).
  rewrite He. f_equal. apply Hclassified. reflexivity.
Defined.

(** Setting the proxy base URL on the sample settings. *)
Lemma proxy_update_changes_one_property_witness :
  exists updated,
    at_path updated ["global"; "settings"; "proxyBaseUrl"]
      = Some (JStr "http://proxy.example/geoserver") /\
    at_path updated ["global"; "settings"; "charset"] = Some (JStr "UTF-8") /\
    at_path updated ["global"; "jai"; "allowInterpolation"] = Some (JBool false).
Proof.
  destruct (proxy_update_changes_one_property (T := Scripted)
              (SettingsClient.new sample_url sample_auth)
              "http://proxy.example/geoserver"
              (script [Fulfilled (settings_reply sample_settings); Fulfilled created] [])
              _ sample_settings _ _ eq_refl eq_refl eq_refl)
    as (updated & props & props' & _ & _ & _ & Hset & Hsettings & Hglobal & _).
  exists updated. split; [exact Hset|]. split.
  - rewrite Hsettings; [reflexivity | discriminate].
  - rewrite Hglobal; [reflexivity | discriminate].
Defined.

(** The base URL with and without the separator. *)
Lemma facade_normalisation_idempotent_witness :
  GeoServerRestClient.new "http://localhost:8080/geoserver/rest/" "admin" "geoserver"
  = GeoServerRestClient.new "http://localhost:8080/geoserver/rest" "admin" "geoserver".
Proof.
  exact (proj2 (facade_normalisation_idempotent
                  "http://localhost:8080/geoserver/rest" "admin" "geoserver"
                  eq_refl)).
Defined.

(** One request, one store. *)
Lemma store_request_names_the_store_witness :
  "my-workspace" = "my-workspace" /\ "datastores" = "datastores" /\
  "my-wfs-datastore" = "my-wfs-datastore".
Proof.
  exact (store_request_names_the_store sample_datastores
           "my-workspace" "my-wfs-datastore" "datastores"
           "my-workspace" "my-wfs-datastore" "datastores"
           eq_refl eq_refl eq_refl eq_refl eq_refl).
Defined.

(** Listing the workspaces through the facade. *)
Lemma facade_requests_carry_credentials_witness :
  Forall (fun req =>
            Headers_get (req_headers req) "Authorization"
              = Some ("Basic " ++ base64 ("admin" ++ ":" ++ "geoserver")) /\
            exists rest,
              req_url req = "http://localhost:8080/geoserver/rest/" ++ rest)
    (newly_issued
       (perform (T := Scripted)
          (WorkspaceGetAll
             (GeoServerRestClient.workspaces
                (GeoServerRestClient.new "http://localhost:8080/geoserver/rest"
                   "admin" "geoserver"))))
       (script [] [])).
Proof.
  exact (facade_requests_carry_credentials (T := Scripted)
           "http://localhost:8080/geoserver/rest" "admin" "geoserver"
           (WorkspaceGetAll
              (GeoServerRestClient.workspaces
                 (GeoServerRestClient.new "http://localhost:8080/geoserver/rest"
                    "admin" "geoserver")))
           (script [] []) (or_intror (or_intror (or_introl eq_refl)))).
Defined.

(** Listing the workspaces without a server. *)
Lemma offline_error_propagates_witness :
  fst (perform (T := Offline) (WorkspaceGetAll sample_workspaces)
         (start (T := Offline) tt))
  = Rejected (FetchError "ECONNREFUSED").
Proof.
  exact (offline_error_propagates (T := Offline) (WorkspaceGetAll sample_workspaces)
           (start (T := Offline) tt) (FetchError "ECONNREFUSED")
           (fun _ _ => eq_refl)).
Defined.
